(** * Image fixture generator and scenario runner

    A shallow embedding of [generate_test_images.py] and
    [test_scenarios.py], together with the properties of the two scripts.

    The scripts call into three libraries.  Their behaviour is modelled as
    follows.
    - [random] (CPython): the Mersenne Twister MT19937, its integer
      seeding, [getrandbits], [_randbelow_with_getrandbits], [randrange]
      and [randint], written out in module [PyRandom].
    - [PIL]: an image is the canvas size, the background colour and the
      drawing calls applied so far; [getpixel] gives each pixel by
      replaying the calls.  Rectangles are written out; the rasterisation
      of ellipses and of text depends on the library version and on the
      default font, and is taken as a parameter.
    - [os], [shutil], [subprocess]: the world outside the interpreter is
      a parameter of the runner, together with the calls that read or
      change it and the child process.  Library calls are taken to
      return; an exception raised by the operating system is not
      modelled. *)

From Stdlib Require Import ZArith Lia Ascii String.
From stdpp Require Import base option list strings pretty gmap.

Open Scope Z_scope.

(** ** Results of fallible computations *)

Inductive error : Type :=
| ValueError (msg : string)
| OutOfFuel.

Inductive result (A : Type) : Type :=
| Ok (a : A)
| Err (e : error).
Arguments Ok {A} a.
Arguments Err {A} e.

(** ** CPython's [random] module *)

Module PyRandom.

Definition N : nat := 624.
Definition M : nat := 397.
Definition MATRIX_A : Z := 0x9908b0df.
Definition UPPER_MASK : Z := 0x80000000.
Definition LOWER_MASK : Z := 0x7fffffff.

(** Wrap-around of [uint32_t] arithmetic. *)
Definition u32 (z : Z) : Z := Z.land z 0xffffffff.

(** [RandomObject]: the array [state[N]] and [index]. *)
Record state : Type := mkState { mt : list Z; index : nat }.

Definition get (a : list Z) (i : nat) : Z := default 0 (a !! i).

(** [init_genrand]: [mt[0] = s], then
    [mt[i] = 1812433253 * (mt[i-1] ^ (mt[i-1] >> 30)) + i]. *)
Fixpoint init_genrand_from (n : nat) (i : Z) (prev : Z) : list Z :=
  match n with
  | O => []
  | S n' =>
      let x := u32 (1812433253 * Z.lxor prev (Z.shiftr prev 30) + i) in
      x :: init_genrand_from n' (i + 1) x
  end.

Definition init_genrand (s : Z) : list Z :=
  u32 s :: init_genrand_from (N - 1) 1 (u32 s).

(** First loop of [init_by_array], [k] iterations left. *)
Fixpoint init_key_loop (k : nat) (key : list Z) (a : list Z) (i j : nat)
  : list Z * nat :=
  match k with
  | O => (a, i)
  | S k' =>
      let p := get a (i - 1) in
      let x := u32 (Z.lxor (get a i) (Z.lxor p (Z.shiftr p 30) * 1664525)
                    + get key j + Z.of_nat j) in
      let a := <[i := x]> a in
      let i := S i in
      let j := S j in
      let '(a, i) := if decide (N ≤ i)%nat
                     then (<[O := get a (N - 1)]> a, 1%nat) else (a, i) in
      let j := if decide (length key ≤ j)%nat then O else j in
      init_key_loop k' key a i j
  end.

(** Second loop of [init_by_array]. *)
Fixpoint init_mix_loop (k : nat) (a : list Z) (i : nat) : list Z :=
  match k with
  | O => a
  | S k' =>
      let p := get a (i - 1) in
      let x := u32 (Z.lxor (get a i) (Z.lxor p (Z.shiftr p 30) * 1566083941)
                    - Z.of_nat i) in
      let a := <[i := x]> a in
      let i := S i in
      let '(a, i) := if decide (N ≤ i)%nat
                     then (<[O := get a (N - 1)]> a, 1%nat) else (a, i) in
      init_mix_loop k' a i
  end.

Definition init_by_array (key : list Z) : state :=
  let a := init_genrand 19650218 in
  let '(a, i) := init_key_loop (Nat.max N (length key)) key a 1 0 in
  let a := init_mix_loop (N - 1) a i in
  mkState (<[O := 0x80000000]> a) N.

(** The 32-bit words of a non-negative integer, least significant first
    ([random_seed] uses at least one word). *)
Fixpoint key_words (n : nat) (a : Z) : list Z :=
  match n with
  | O => []
  | S n' => u32 a :: key_words n' (Z.shiftr a 32)
  end.

Definition bit_length (n : Z) : Z :=
  if decide (n = 0) then 0 else Z.log2 (Z.abs n) + 1.

(** [random.seed(a)] for an integer [a]. *)
Definition seed (a : Z) : state :=
  let n := Z.abs a in
  let bits := bit_length n in
  let keyused := if decide (bits = 0) then 1 else (bits - 1) / 32 + 1 in
  init_by_array (key_words (Z.to_nat keyused) n).

(** The loop of [genrand_uint32] that refills the array, [n] entries
    left; entry [kk] is read together with entries [kk+1] and [kk+M]
    (indices modulo [N]) of the array as updated so far. *)
Fixpoint twist_from (n : nat) (kk : nat) (a : list Z) : list Z :=
  match n with
  | O => a
  | S n' =>
      let y := Z.lor (Z.land (get a kk) UPPER_MASK)
                     (Z.land (get a (S kk mod N)) LOWER_MASK) in
      let mag := if Z.odd y then MATRIX_A else 0 in
      let x := Z.lxor (Z.lxor (get a ((kk + M) mod N)) (Z.shiftr y 1)) mag in
      twist_from n' (S kk) (<[kk := x]> a)
  end.

Definition temper (y : Z) : Z :=
  let y := Z.lxor y (Z.shiftr y 11) in
  let y := Z.lxor y (Z.land (Z.shiftl y 7) 0x9d2c5680) in
  let y := Z.lxor y (Z.land (Z.shiftl y 15) 0xefc60000) in
  let y := Z.lxor y (Z.shiftr y 18) in
  u32 y.

Definition genrand_uint32 (g : state) : Z * state :=
  let g := if decide (N ≤ index g)%nat
           then mkState (twist_from N 0 (mt g)) 0 else g in
  (temper (get (mt g) (index g)), mkState (mt g) (S (index g))).

(** [getrandbits(k)] for [k > 32]: the words are drawn least
    significant first, the last one shifted down to the bits left. *)
Fixpoint getrandbits_words (words : nat) (k : Z) (g : state) : Z * state :=
  match words with
  | O => (0, g)
  | S w =>
      let '(r, g) := genrand_uint32 g in
      let r := if decide (k < 32) then Z.shiftr r (32 - k) else r in
      let '(hi, g) := getrandbits_words w (k - 32) g in
      (Z.lor r (Z.shiftl hi 32), g)
  end.

Definition getrandbits (k : Z) (g : state) : result (Z * state) :=
  if decide (k < 0) then Err (ValueError "number of bits must be non-negative")
  else if decide (k = 0) then Ok (0, g)
  else if decide (k ≤ 32) then
    let '(r, g) := genrand_uint32 g in Ok (Z.shiftr r (32 - k), g)
  else Ok (getrandbits_words (Z.to_nat ((k - 1) / 32 + 1)) k g).

(** [_randbelow_with_getrandbits]: draw [k] bits until the value is
    below [n].  [fuel] bounds the number of draws. *)
Fixpoint randbelow_loop (fuel : nat) (n k : Z) (g : state)
  : result (Z * state) :=
  match fuel with
  | O => Err OutOfFuel
  | S fuel' =>
      match getrandbits k g with
      | Err e => Err e
      | Ok (r, g) =>
          if decide (n ≤ r) then randbelow_loop fuel' n k g else Ok (r, g)
      end
  end.

Definition randbelow (fuel : nat) (n : Z) (g : state) : result (Z * state) :=
  randbelow_loop fuel n (bit_length n) g.

(** [randrange(start, stop)] with the default step. *)
Definition randrange (fuel : nat) (start stop : Z) (g : state)
  : result (Z * state) :=
  let width := stop - start in
  if decide (0 < width) then
    match randbelow fuel width g with
    | Err e => Err e
    | Ok (r, g) => Ok (start + r, g)
    end
  else Err (ValueError "empty range for randrange()").

Definition randint (fuel : nat) (a b : Z) (g : state) : result (Z * state) :=
  randrange fuel a (b + 1) g.

End PyRandom.

(** ** PIL images *)

Definition rgb : Type := Z * Z * Z.
Definition box : Type := Z * Z * Z * Z.

Module PIL.

(** The calls of [ImageDraw.Draw] that the generator uses. *)
Inductive draw_call : Type :=
| DrawRectangle (xy : box) (fill outline : option rgb) (width : Z)
| DrawEllipse (xy : box) (fill outline : option rgb) (width : Z)
| DrawText (xy : Z * Z) (s : string) (fill : rgb).

(** An ['RGB'] image: its size, the colour it was created with and the
    drawing calls applied to it, oldest first. *)
Record Image : Type :=
  mkImage { size : Z * Z; background : rgb; calls : list draw_call }.

(** What the library does with ellipses and with text in the default
    font ([font] is [ImageFont.load_default()], or [None], which makes
    the drawing calls load the default font themselves):
    [ellipse_px] and [text_px] give the new colour of pixel [(x, y)]
    from its old colour, [textbbox] the bounding box of a text. *)
Class Rasterizer : Type := {
  ellipse_px : box → option rgb → option rgb → Z → Z → Z → rgb → rgb;
  textbbox : Z * Z → string → box;
  text_px : Z * Z → string → rgb → Z → Z → rgb → rgb
}.

Definition new (size : Z * Z) (color : rgb) : Image := mkImage size color [].

Definition draw (im : Image) (c : draw_call) : Image :=
  mkImage (size im) (background im) (calls im ++ [c]).

Definition in_box (xy : box) (x y : Z) : bool :=
  let '(x0, y0, x1, y1) := xy in
  bool_decide (x0 ≤ x ≤ x1 ∧ y0 ≤ y ≤ y1).

(** The outline of a rectangle is [width] pixels thick and lies inside
    the box. *)
Definition on_outline (xy : box) (width : Z) (x y : Z) : bool :=
  let '(x0, y0, x1, y1) := xy in
  in_box xy x y &&
  bool_decide (x < x0 + width ∨ x1 - width < x ∨
               y < y0 + width ∨ y1 - width < y).

Section pixels.
Context `{Rasterizer}.

Definition paint (c : draw_call) (x y : Z) (old : rgb) : rgb :=
  match c with
  | DrawRectangle xy fill outline width =>
      let filled :=
        match fill with
        | Some f => if in_box xy x y then f else old
        | None => old
        end in
      match outline with
      | Some o => if on_outline xy width x y then o else filled
      | None => filled
      end
  | DrawEllipse xy fill outline width =>
      ellipse_px xy fill outline width x y old
  | DrawText xy s fill => text_px xy s fill x y old
  end.

Definition paint_all (cs : list draw_call) (x y : Z) (c : rgb) : rgb :=
  foldl (λ c call, paint call x y c) c cs.

(** [Image.getpixel]; outside the canvas the library raises. *)
Definition getpixel (im : Image) (x y : Z) : option rgb :=
  let '(w, h) := size im in
  if bool_decide (0 ≤ x < w ∧ 0 ≤ y < h)
  then Some (paint_all (calls im) x y (background im))
  else None.
End pixels.

End PIL.

(** ** generate_test_images.py *)

Module generate_test_images.

(** Calls with an effect outside the interpreter, in the order made. *)
Inductive event : Type :=
| Makedirs (path : string)
| Print (line : string)
| RandomSeed (a : Z)
| Save (path : string) (image : PIL.Image).

(** A computation reads and updates the state of the global random
    generator and emits events, or fails. *)
Definition Gen (A : Type) : Type :=
  PyRandom.state → result (A * PyRandom.state * list event).

Definition ret {A} (a : A) : Gen A := λ g, Ok (a, g, []).

Definition bind {A B} (m : Gen A) (f : A → Gen B) : Gen B := λ g,
  match m g with
  | Err e => Err e
  | Ok (a, g1, ev1) =>
      match f a g1 with
      | Err e => Err e
      | Ok (b, g2, ev2) => Ok (b, g2, ev1 ++ ev2)
      end
  end.

#[export] Instance Gen_ret : MRet Gen := @ret.
#[export] Instance Gen_bind : MBind Gen := λ A B f m, bind m f.

Definition emit (e : event) : Gen unit := λ g, Ok (tt, g, [e]).
Definition print (line : string) : Gen unit := emit (Print line).
Definition makedirs (path : string) : Gen unit := emit (Makedirs path).
Definition save (image : PIL.Image) (path : string) : Gen unit :=
  emit (Save path image).
Definition random_seed (a : Z) : Gen unit := λ _,
  Ok (tt, PyRandom.seed a, [RandomSeed a]).
Definition random_randint (fuel : nat) (a b : Z) : Gen Z := λ g,
  match PyRandom.randint fuel a b g with
  | Err e => Err e
  | Ok (r, g) => Ok (r, g, [])
  end.

(** [os.path.join] of two relative POSIX paths. *)
Definition path_join (a b : string) : string := a +:+ "/" +:+ b.

Definition color_scheme_t : Type := rgb * rgb * rgb.

Record test_case : Type := mkCase {
  filename : string;
  text : string;
  color_scheme : color_scheme_t
}.

Definition set_text (s : string) (tc : test_case) : test_case :=
  mkCase (filename tc) s (color_scheme tc).
Definition set_color_scheme (cs : color_scheme_t) (tc : test_case)
  : test_case :=
  mkCase (filename tc) (text tc) cs.

Section generator.
Context `{PIL.Rasterizer}.

(** The loop [for i in range(5)] of [create_test_image], [n] rounds
    left. *)
Fixpoint random_elements (fuel : nat) (n : nat) (width height : Z)
    (shape_color : rgb) (image : PIL.Image) : Gen PIL.Image :=
  match n with
  | O => ret image
  | S n' =>
      x1 ← random_randint fuel 0 width;
      y1 ← random_randint fuel 0 height;
      dx ← random_randint fuel 10 50;
      dy ← random_randint fuel 10 50;
      let x2 := x1 + dx in
      let y2 := y1 + dy in
      let image :=
        PIL.draw image
          (PIL.DrawRectangle (x1, y1, x2, y2) (Some shape_color) None 1) in
      random_elements fuel n' width height shape_color image
  end.

Definition create_test_image (fuel : nat) (filename text : string)
    (width height : Z) (color_scheme : option color_scheme_t)
  : Gen PIL.Image :=
  let '(bg_color, text_color, shape_color) :=
    match color_scheme with
    | None => ((255, 255, 255), (0, 0, 0), (100, 150, 200))
    | Some cs => cs
    end in
  let image := PIL.new (width, height) bg_color in
  let image :=
    PIL.draw image
      (PIL.DrawRectangle (50, 50, width - 50, height - 50)
         None (Some shape_color) 3) in
  let image :=
    PIL.draw image
      (PIL.DrawEllipse (100, 100, width - 100, height - 100)
         None (Some shape_color) 2) in
  let '(b0, b1, b2, b3) := PIL.textbbox (0, 0) text in
  let text_width := b2 - b0 in
  let text_height := b3 - b1 in
  let x := (width - text_width) `div` 2 in
  let y := (height - text_height) `div` 2 in
  let image := PIL.draw image (PIL.DrawText (x, y) text text_color) in
  random_elements fuel 5 width height shape_color image.

Definition test_cases : list test_case := [
  mkCase "ui-main-screen.png" "Main Screen UI"
    ((255, 255, 255), (0, 0, 0), (100, 150, 200));
  mkCase "ui-settings-dialog.png" "Settings Dialog"
    ((240, 240, 240), (50, 50, 50), (200, 100, 100));
  mkCase "ui-dashboard.png" "Dashboard View"
    ((250, 250, 250), (30, 30, 30), (150, 200, 100))
].

(** The block of [main] that seeds the generator. *)
Definition set_seed (test_scenario : string) : Gen unit :=
  if decide (test_scenario = "changed") then
    random_seed 123;;
    print "Using changed seed to create visual differences"
  else
    random_seed 42;;
    print "Using baseline seed for consistent images".

(** The block of [main] that modifies the test cases.  The indices
    are those of the three-element list above, so no assignment is out
    of range. *)
Definition modify_test_cases (test_scenario : string)
    (test_cases : list test_case) : Gen (list test_case) :=
  if decide (test_scenario = "changed") then
    let test_cases := alter (set_text "Main Screen UI - UPDATED") 0%nat test_cases in
    let test_cases :=
      alter (set_color_scheme ((255, 255, 255), (0, 0, 0), (150, 100, 200)))
        0%nat test_cases in
    let test_cases :=
      alter (set_color_scheme ((220, 220, 220), (50, 50, 50), (200, 150, 100)))
        1%nat test_cases in
    let test_cases := alter (set_text "Dashboard View - MODIFIED") 2%nat test_cases in
    let test_cases :=
      alter (set_color_scheme ((240, 240, 240), (40, 40, 40), (100, 150, 200)))
        2%nat test_cases in
    print "Applied changes to create visual differences";;
    ret test_cases
  else if decide (test_scenario = "mixed") then
    let test_cases := alter (set_text "Main Screen UI - CHANGED") 0%nat test_cases in
    let test_cases :=
      alter (set_color_scheme ((255, 255, 255), (0, 0, 0), (200, 100, 150)))
        0%nat test_cases in
    print "Applied mixed changes - some images will pass, some will fail";;
    ret test_cases
  else ret test_cases.

(** The loop [for test_case in test_cases] of [main]. *)
Fixpoint generate (fuel : nat) (test_cases : list test_case) : Gen unit :=
  match test_cases with
  | [] => ret tt
  | test_case :: rest =>
      print ("Generating " +:+ filename test_case +:+ "...");;
      image ← create_test_image fuel (filename test_case)
                    (text test_case) 400 300
                    (Some (color_scheme test_case));
      let output_path := path_join "outputs" (filename test_case) in
      save image output_path;;
      print ("Saved " +:+ output_path);;
      generate fuel rest
  end.

Definition main (fuel : nat) (environ : gmap string string) : Gen unit :=
  makedirs "outputs";;
  let test_scenario := default "baseline" (environ !! "TEST_SCENARIO") in
  print ("Generating images for scenario: " +:+ test_scenario);;
  set_seed test_scenario;;
  test_cases ← modify_test_cases test_scenario test_cases;
  generate fuel test_cases;;
  print ("Test image generation completed for scenario: "
         +:+ test_scenario +:+ "!").

End generator.

End generate_test_images.

(** ** Python's [repr] and [str] of the values the runner prints *)

Module PyStr.

Definition squote : ascii := ascii_of_nat 39.
Definition dquote : ascii := ascii_of_nat 34.
Definition backslash : ascii := ascii_of_nat 92.
Definition newline : string := String (ascii_of_nat 10) EmptyString.

Fixpoint contains (c : ascii) (s : string) : bool :=
  match s with
  | EmptyString => false
  | String d s' => if decide (c = d) then true else contains c s'
  end.

Definition hex_digit (n : nat) : ascii :=
  ascii_of_nat (if decide (n < 10)%nat then 48 + n else 87 + n).

(** One character of a [repr]: the quote in use and the backslash are
    escaped, control characters are written [\t], [\n], [\r] or [\xhh].
    Bytes above 127 are kept: they are taken to encode printable
    characters. *)
Definition repr_char (quote c : ascii) : string :=
  let n := nat_of_ascii c in
  if decide (c = quote ∨ c = backslash) then String backslash (String c EmptyString)
  else if decide (n = 9%nat) then String backslash "t"
  else if decide (n = 10%nat) then String backslash "n"
  else if decide (n = 13%nat) then String backslash "r"
  else if decide (n < 32 ∨ n = 127)%nat then
    String backslash
      (String "x" (String (hex_digit (n / 16)) (String (hex_digit (n mod 16)) EmptyString)))
  else String c EmptyString.

Fixpoint repr_chars (quote : ascii) (s : string) : string :=
  match s with
  | EmptyString => EmptyString
  | String c s' => repr_char quote c +:+ repr_chars quote s'
  end.

(** [repr] of a [str]: single quotes, unless the text has a single
    quote and no double quote. *)
Definition repr (s : string) : string :=
  let quote :=
    if contains squote s && negb (contains dquote s) then dquote else squote in
  String quote (repr_chars quote s) +:+ String quote EmptyString.

Fixpoint join (sep : string) (l : list string) : string :=
  match l with
  | [] => EmptyString
  | [x] => x
  | x :: l' => x +:+ sep +:+ join sep l'
  end.

(** [str] of a list of [str]. *)
Definition str_list (l : list string) : string :=
  "[" +:+ join ", " (repr <$> l) +:+ "]".

(** [s * n] *)
Fixpoint repeat (s : string) (n : nat) : string :=
  match n with
  | O => EmptyString
  | S n' => s +:+ repeat s n'
  end.

End PyStr.

(** ** test_scenarios.py *)

Module test_scenarios.

Record CompletedProcess : Type :=
  mkCompleted { returncode : Z; stdout : string; stderr : string }.

Inductive event : Type :=
| Print (line : string)
| Rmtree (path : string)
| Run (args : list string) (env : gmap string string)
      (result : CompletedProcess).

Section runner.
(** The state outside the interpreter (directories, whatever else the
    child process depends on) and the library calls that read or
    change it. *)
Context {World : Type}.
Context (path_exists : string → World → bool).
Context (rmtree : string → World → World).
Context (listdir : string → World → list string).
Context (subprocess_run :
           list string → gmap string string → World
           → CompletedProcess * World).

(** A computation changes the world and emits events; it yields a
    value, or the status given to [sys.exit]. *)
Definition IO (A : Type) : Type :=
  World → (A + Z) * World * list event.

Definition ret {A} (a : A) : IO A := λ w, (inl a, w, []).

Definition bind {A B} (m : IO A) (f : A → IO B) : IO B := λ w,
  match m w with
  | (inr status, w1, ev1) => (inr status, w1, ev1)
  | (inl a, w1, ev1) =>
      let '(r, w2, ev2) := f a w1 in (r, w2, ev1 ++ ev2)
  end.

#[export] Instance IO_ret : MRet IO := @ret.
#[export] Instance IO_bind : MBind IO := λ A B f m, bind m f.

Definition print (line : string) : IO unit := λ w, (inl tt, w, [Print line]).
Definition sys_exit {A} (status : Z) : IO A := λ w, (inr status, w, []).
Definition os_path_exists (path : string) : IO bool := λ w,
  (inl (path_exists path w), w, []).
Definition shutil_rmtree (path : string) : IO unit := λ w,
  (inl tt, rmtree path w, [Rmtree path]).
Definition os_listdir (path : string) : IO (list string) := λ w,
  (inl (listdir path w), w, []).
Definition subprocess_run_capture (args : list string)
    (env : gmap string string) : IO CompletedProcess := λ w,
  let '(result, w) := subprocess_run args env w in
  (inl result, w, [Run args env result]).

Definition when (b : bool) (m : IO unit) : IO unit :=
  if b then m else ret tt.

Definition rule : string := PyStr.repeat "=" 50.

Definition run_scenario (environ : gmap string string)
    (scenario_name : string) : IO bool :=
  print (PyStr.newline +:+ rule);;
  print ("Running scenario: " +:+ scenario_name);;
  print rule;;
  let env := <["TEST_SCENARIO" := scenario_name]> environ in
  outputs ← os_path_exists "outputs";
  when outputs (shutil_rmtree "outputs");;
  diffs ← os_path_exists "diffs";
  when diffs (shutil_rmtree "diffs");;
  print "Generating test images...";;
  result ← subprocess_run_capture ["python"; "generate_test_images.py"] env;
  if decide (returncode result ≠ 0) then
    print ("Error generating images: " +:+ stderr result);;
    ret false
  else
    print (stdout result);;
    outputs ← os_path_exists "outputs";
    (if outputs : bool then
       output_files ← os_listdir "outputs";
       print ("Generated " +:+ pretty (length output_files)
              +:+ " output files: " +:+ PyStr.str_list output_files)
     else ret tt);;
    ret true.

(** The loop [for scenario in scenarios] of [main]. *)
Fixpoint run_all (environ : gmap string string) (scenarios : list string)
    (success : bool) : IO bool :=
  match scenarios with
  | [] => ret success
  | scenario :: rest =>
      ok ← run_scenario environ scenario;
      let success := if negb ok then false else success in
      run_all environ rest success
  end.

Definition main (argv : list string) (environ : gmap string string)
  : IO unit :=
  let scenarios := ["baseline"; "changed"; "mixed"] in
  scenarios ←
    (if decide (1 < length argv)%nat then
       let scenario := default "" (argv !! 1%nat) in
       (if decide (scenario ∉ scenarios) then
          print ("Invalid scenario. Choose from: "
                 +:+ PyStr.str_list scenarios);;
          sys_exit 1
        else ret tt);;
       ret [scenario]
     else ret scenarios);
  print "Visual Regression Test Scenario Runner";;
  print "=====================================";;
  print "This script demonstrates the different test scenarios:";;
  print "  baseline: All images match golden masters (tests pass)";;
  print "  changed:  All images differ from golden masters (tests fail)";;
  print "  mixed:    Some images pass, some fail";;
  print "";;
  success ← run_all environ scenarios true;
  if success : bool then
    print (PyStr.newline +:+ rule);;
    print "All scenarios completed successfully!";;
    print "You can now trigger the visual-diff workflow with different scenarios";;
    print "using the workflow_dispatch event on GitHub Actions.";;
    print rule
  else
    print (PyStr.newline +:+ "Some scenarios failed. Check the error messages above.");;
    sys_exit 1.

(** The exit status of the process that runs [main]. *)
Definition exit_status (r : unit + Z) : Z :=
  match r with inl _ => 0 | inr status => status end.

Definition run_main (argv : list string) (environ : gmap string string)
    (w : World) : Z * World * list event :=
  let '(r, w, ev) := main argv environ w in (exit_status r, w, ev).
End runner.

End test_scenarios.

(** ** Observations on runs, used to state the properties *)

Definition result_map {A B} (f : A → B) (r : result A) : result B :=
  match r with Ok a => Ok (f a) | Err e => Err e end.

Module PILSpec.
Import PIL.

(** Two images show the same pixels: same size, same colour at every
    position. *)
Definition pixel_identical `{Rasterizer} (a b : Image) : Prop :=
  size a = size b ∧ ∀ x y, getpixel a x y = getpixel b x y.

(** A rasteriser to compute with: the outline of an ellipse is the band
    between the ellipse inscribed in the box and the one [width] pixels
    further in, and a text is a row of filled cells of 6 by 11 pixels. *)
Definition in_ellipse (xy : box) (x y : Z) : bool :=
  let '(x0, y0, x1, y1) := xy in
  let a := x1 - x0 in
  let b := y1 - y0 in
  bool_decide (((2 * x - (x0 + x1)) * b) ^ 2 + ((2 * y - (y0 + y1)) * a) ^ 2
               ≤ (a * b) ^ 2).

Definition block_raster : Rasterizer := {|
  ellipse_px xy fill outline width x y old :=
    let '(x0, y0, x1, y1) := xy in
    let filled :=
      match fill with
      | Some f => if in_ellipse xy x y then f else old
      | None => old
      end in
    match outline with
    | Some o =>
        if in_ellipse xy x y
           && negb (in_ellipse (x0 + width, y0 + width, x1 - width, y1 - width) x y)
        then o else filled
    | None => filled
    end;
  textbbox xy s :=
    let '(x, y) := xy in (x, y, x + 6 * Z.of_nat (String.length s), y + 11);
  text_px xy s fill x y old :=
    let '(x0, y0) := xy in
    if bool_decide (x0 ≤ x < x0 + 6 * Z.of_nat (String.length s)
                    ∧ y0 ≤ y < y0 + 11)
    then fill else old
|}.
End PILSpec.

Module generate_test_images_runs.
Import generate_test_images.

#[export] Instance test_case_eq_dec : EqDecision test_case.
Proof. solve_decision. Defined.

(** The value of [test_scenario] in [main]. *)
Definition scenario_of (environ : gmap string string) : string :=
  default "baseline" (environ !! "TEST_SCENARIO").

(** The test cases that [main] renders: the value left by the block
    that modifies them (it does not use the random generator). *)
Definition modified_test_cases (test_scenario : string) : list test_case :=
  match modify_test_cases test_scenario test_cases (PyRandom.mkState [] 0) with
  | Ok (cases, _, _) => cases
  | Err _ => []
  end.

(** Positions at which two lists of test cases differ. *)
Definition overridden (before after : list test_case) : list nat :=
  filter (λ i, before !! i ≠ after !! i) (seq 0 (length before)).

Definition seeds (evs : list event) : list Z :=
  omap (λ e, match e with RandomSeed a => Some a | _ => None end) evs.

Definition saved (evs : list event) : list (string * PIL.Image) :=
  omap (λ e, match e with Save p im => Some (p, im) | _ => None end) evs.

(** The value a computation returns. *)
Definition value {A} (r : result (A * PyRandom.state * list event))
  : result A :=
  result_map (λ x, x.1.1) r.

Definition is_print (e : event) : Prop :=
  match e with Print _ => True | _ => False end.

(** The boxes of the random rectangles of one image: the draws of
    [random_elements] without the drawing. *)
Fixpoint random_boxes (fuel : nat) (n : nat) (width height : Z)
    (g : PyRandom.state) : result (list box * PyRandom.state) :=
  match n with
  | O => Ok ([], g)
  | S n' =>
      match PyRandom.randint fuel 0 width g with
      | Err e => Err e
      | Ok (x1, g) =>
      match PyRandom.randint fuel 0 height g with
      | Err e => Err e
      | Ok (y1, g) =>
      match PyRandom.randint fuel 10 50 g with
      | Err e => Err e
      | Ok (dx, g) =>
      match PyRandom.randint fuel 10 50 g with
      | Err e => Err e
      | Ok (dy, g) =>
      match random_boxes fuel n' width height g with
      | Err e => Err e
      | Ok (bs, g) => Ok ((x1, y1, x1 + dx, y1 + dy) :: bs, g)
      end end end end end
  end.

(** The boxes of [k] images of 400 by 300 rendered one after the
    other. *)
Fixpoint boxes_seq (fuel : nat) (k : nat) (g : PyRandom.state)
  : result (list (list box) * PyRandom.state) :=
  match k with
  | O => Ok ([], g)
  | S k' =>
      match random_boxes fuel 5 400 300 g with
      | Err e => Err e
      | Ok (bs, g) =>
          match boxes_seq fuel k' g with
          | Err e => Err e
          | Ok (bss, g) => Ok (bs :: bss, g)
          end
      end
  end.

(** What the draws of [create_test_image] guarantee of a box: its first
    corner is on the canvas (borders included) and each side is 10 to 50
    long. *)
Definition box_ok (width height : Z) (b : box) : Prop :=
  let '(x1, y1, x2, y2) := b in
  0 ≤ x1 ≤ width ∧ 0 ≤ y1 ≤ height ∧
  x1 + 10 ≤ x2 ≤ x1 + 50 ∧ y1 + 10 ≤ y2 ≤ y1 + 50.

(** What it would take for a box to lie within the canvas. *)
Definition box_within (width height : Z) (b : box) : Prop :=
  let '(x1, y1, x2, y2) := b in
  0 ≤ x1 ≤ x2 ∧ x2 ≤ width ∧ 0 ≤ y1 ≤ y2 ∧ y2 ≤ height.

Definition fill_call (shape_color : rgb) (b : box) : PIL.draw_call :=
  PIL.DrawRectangle b (Some shape_color) None 1.

Section images.
Context `{PIL.Rasterizer}.

(** The image that [create_test_image] returns when the random
    rectangles have the boxes [boxes]. *)
Definition image_of (text : string) (width height : Z)
    (color_scheme : color_scheme_t) (boxes : list box) : PIL.Image :=
  let '(bg_color, text_color, shape_color) := color_scheme in
  let '(b0, b1, b2, b3) := PIL.textbbox (0, 0) text in
  PIL.mkImage (width, height) bg_color
    ([PIL.DrawRectangle (50, 50, width - 50, height - 50)
        None (Some shape_color) 3;
      PIL.DrawEllipse (100, 100, width - 100, height - 100)
        None (Some shape_color) 2;
      PIL.DrawText ((width - (b2 - b0)) `div` 2, (height - (b3 - b1)) `div` 2)
        text text_color]
     ++ (fill_call shape_color <$> boxes)).

(** The events of the loop of [main] over [cases]. *)
Fixpoint render_events (cases : list test_case) (bss : list (list box))
  : list event :=
  match cases, bss with
  | tc :: cases', bs :: bss' =>
      [Print ("Generating " +:+ filename tc +:+ "...");
       Save (path_join "outputs" (filename tc))
         (image_of (text tc) 400 300 (color_scheme tc) bs);
       Print ("Saved " +:+ path_join "outputs" (filename tc))]
      ++ render_events cases' bss'
  | _, _ => []
  end.
End images.

(** What the random generator gives for the three images after
    [random.seed(42)] and after [random.seed(123)]. *)
Definition boxes_42 : list (list box) :=
  [[(327, 57, 338, 84); (125, 114, 143, 130); (346, 279, 361, 326);
    (216, 16, 227, 31); (111, 119, 153, 167)];
   [(13, 287, 35, 331); (214, 112, 252, 159); (142, 3, 162, 40);
    (174, 142, 193, 165); (390, 172, 406, 187)];
   [(194, 49, 226, 81); (309, 135, 321, 174); (274, 63, 308, 78);
    (282, 150, 332, 199); (185, 295, 207, 309)]].

Definition boxes_123 : list (list box) :=
  [[(26, 137, 41, 173); (136, 55, 148, 89); (274, 287, 305, 318);
    (26, 81, 44, 112); (287, 170, 312, 190)];
   [(0, 223, 15, 271); (193, 35, 203, 65); (374, 229, 390, 241);
    (47, 72, 65, 83); (149, 220, 195, 260)];
   [(135, 240, 147, 269); (175, 267, 215, 290); (311, 269, 357, 299);
    (6, 203, 48, 240); (350, 275, 400, 323)]].

(** The boxes of the three images of a scenario. *)
Definition scenario_boxes (test_scenario : string) : list (list box) :=
  if decide (test_scenario = "changed") then boxes_123 else boxes_42.
End generate_test_images_runs.

Module test_scenarios_runs.
Import test_scenarios.

(** The child processes of a run: the scenario each was given and the
    status it returned. *)
Definition invocations (evs : list event) : list (option string * Z) :=
  omap (λ e, match e with
             | Run _ env result => Some (env !! "TEST_SCENARIO", returncode result)
             | _ => None
             end) evs.

Definition deletions (evs : list event) : list string :=
  omap (λ e, match e with Rmtree p => Some p | _ => None end) evs.

(** A world to compute with: the directories and their entries.  The
    child fails for the scenarios in [failing] and otherwise leaves the
    three images in [outputs]. *)
Definition dirs : Type := gmap string (list string).

Definition sim_path_exists (path : string) (w : dirs) : bool :=
  bool_decide (is_Some (w !! path)).
Definition sim_rmtree (path : string) (w : dirs) : dirs := delete path w.
Definition sim_listdir (path : string) (w : dirs) : list string :=
  default [] (w !! path).
Definition sim_subprocess_run (failing : list string) (args : list string)
    (env : gmap string string) (w : dirs) : CompletedProcess * dirs :=
  let scenario := default "baseline" (env !! "TEST_SCENARIO") in
  if decide (scenario ∈ failing)
  then (mkCompleted 1 "" "Traceback (most recent call last):", w)
  else (mkCompleted 0 ("Generating images for scenario: " +:+ scenario) "",
        <["outputs" := ["ui-main-screen.png"; "ui-settings-dialog.png";
                        "ui-dashboard.png"]]> w).

Definition sim_main (failing : list string) :=
  run_main sim_path_exists sim_rmtree sim_listdir (sim_subprocess_run failing).
End test_scenarios_runs.

(** ** Further observations *)

Module generate_test_images_views.
Import PIL generate_test_images.

(** The state of the random generator after a computation, and the
    events it emitted. *)
Definition state_after {A} (r : result (A * PyRandom.state * list event))
  : result PyRandom.state :=
  result_map (λ x, x.1.2) r.

Definition emitted {A} (r : result (A * PyRandom.state * list event))
  : result (list event) :=
  result_map snd r.

(** The boxes of the filled rectangles of an image, in drawing order. *)
Definition filled_boxes (im : Image) : list box :=
  omap (λ c, match c with
             | DrawRectangle b (Some _) _ _ => Some b
             | _ => None
             end) (calls im).

Section captions.
Context `{Rasterizer}.

(** Where [create_test_image] puts the caption on a canvas of 400 by
    300. *)
Definition caption_position (text : string) : Z * Z :=
  let '(b0, b1, b2, b3) := textbbox (0, 0) text in
  ((400 - (b2 - b0)) `div` 2, (300 - (b3 - b1)) `div` 2).

(** The inner ellipse and the caption [text] leave the pixel [(50, 50)],
    the first corner of the border, as it is. *)
Definition corner_untouched (text : string) : Prop :=
  (∀ fill outline width old,
     ellipse_px (100, 100, 300, 200) fill outline width 50 50 old = old) ∧
  (∀ fill old, text_px (caption_position text) text fill 50 50 old = old).
End captions.

End generate_test_images_views.

Module test_scenarios_views.
Import test_scenarios.

Definition prints (evs : list event) : list string :=
  omap (λ e, match e with Print line => Some line | _ => None end) evs.

(** The child processes of a run with what they were given. *)
Definition runs (evs : list event)
  : list (list string * gmap string string * CompletedProcess) :=
  omap (λ e, match e with
             | Run args env result => Some (args, env, result)
             | _ => None
             end) evs.

Definition only_prints (evs : list event) : Prop :=
  forallb (λ e, match e with Print _ => true | _ => false end) evs = true.

(** What a run started with the environment [environ] may do besides
    printing: remove [outputs] or [diffs], and run the generator with
    [TEST_SCENARIO] set to a scenario of [scenarios] and the rest of the
    environment as it is. *)
Definition event_allowed (environ : gmap string string)
    (scenarios : list string) (e : event) : Prop :=
  match e with
  | Print _ => True
  | Rmtree path => path = "outputs" ∨ path = "diffs"
  | Run args env _ =>
      args = ["python"; "generate_test_images.py"] ∧
      ∃ s, s ∈ scenarios ∧ env = <["TEST_SCENARIO" := s]> environ
  end.

(** How [main] chooses the scenarios to run from its arguments. *)
Definition selects (argv : list string) (scenarios : list string) : Prop :=
  ((length argv ≤ 1)%nat ∧ scenarios = ["baseline"; "changed"; "mixed"]) ∨
  (∃ s, argv !! 1%nat = Some s ∧ s ∈ ["baseline"; "changed"; "mixed"] ∧
        scenarios = [s]).

Section worlds.
Context {World : Type}.
Context (path_exists : string → World → bool).
Context (rmtree : string → World → World).
Context (subprocess_run :
           list string → gmap string string → World
           → CompletedProcess * World).

(** The world once [outputs] and [diffs] are removed, if there. *)
Definition cleaned (w : World) : World :=
  let w1 := if path_exists "outputs" w then rmtree "outputs" w else w in
  if path_exists "diffs" w1 then rmtree "diffs" w1 else w1.

(** The world the generator leaves when run for [scenario] in the
    cleaned world. *)
Definition after_scenario (environ : gmap string string) (w : World)
    (scenario : string) : World :=
  (subprocess_run ["python"; "generate_test_images.py"]
     (<["TEST_SCENARIO" := scenario]> environ) (cleaned w)).2.
End worlds.

End test_scenarios_views.

(** * Properties *)

(** ** The random generator *)

Section random_facts.
Import PyRandom.

(** The model against CPython: the first word after [random.seed(42)],
    and the first two values of [random.randint(0, 100)]. *)
Example seed_42_first_word :
  (genrand_uint32 (seed 42)).1 = 2746317213.
Proof. vm_compute. reflexivity. Qed.

Example seed_42_randint_0_100 :
  match randint 4 0 100 (seed 42) with
  | Ok (r1, g) => Some (r1, result_map fst (randint 4 0 100 g))
  | Err _ => None
  end = Some (81, Ok 14).
Proof. vm_compute. reflexivity. Qed.

Lemma u32_nonneg z : 0 ≤ u32 z.
Proof. unfold u32. apply Z.land_nonneg. right. lia. Qed.

Lemma genrand_uint32_nonneg g : 0 ≤ (genrand_uint32 g).1.
Proof. unfold genrand_uint32, temper. cbn [fst]. apply u32_nonneg. Qed.

Lemma getrandbits_words_nonneg words k g :
  0 ≤ (getrandbits_words words k g).1.
Proof.
  revert k g. induction words as [|w IH]; intros k g;
    cbn [getrandbits_words fst]; [lia|].
  pose proof (genrand_uint32_nonneg g) as Hr.
  destruct (genrand_uint32 g) as [r g1]. cbn [fst] in Hr.
  specialize (IH (k - 32) g1).
  destruct (getrandbits_words w (k - 32) g1) as [hi g2]. cbn [fst] in *.
  apply Z.lor_nonneg. split.
  - case_decide; [apply Z.shiftr_nonneg|]; lia.
  - apply Z.shiftl_nonneg. lia.
Qed.

Lemma getrandbits_nonneg k g r g' :
  getrandbits k g = Ok (r, g') → 0 ≤ r.
Proof.
  unfold getrandbits. repeat case_decide; try discriminate.
  - intros [= <- _]. lia.
  - pose proof (genrand_uint32_nonneg g) as Hr.
    destruct (genrand_uint32 g) as [r0 g1]. cbn [fst] in Hr.
    intros [= <- _]. apply Z.shiftr_nonneg. lia.
  - pose proof (getrandbits_words_nonneg (Z.to_nat ((k - 1) `div` 32 + 1)) k g) as Hr.
    destruct (getrandbits_words _ k g) as [r0 g1]. cbn [fst] in Hr.
    intros [= <- _]. lia.
Qed.

Lemma randbelow_loop_range fuel n k g r g' :
  randbelow_loop fuel n k g = Ok (r, g') → 0 ≤ r < n.
Proof.
  revert g. induction fuel as [|fuel IH]; intros g;
    cbn [randbelow_loop]; [discriminate|].
  destruct (getrandbits k g) as [[r0 g1]|e] eqn:E; [|discriminate].
  case_decide as Hn; [apply IH|].
  intros [= <- _]. apply getrandbits_nonneg in E. lia.
Qed.

(** [randint(a, b)] returns a value between [a] and [b], both
    included. *)
Lemma randint_range fuel a b g r g' :
  randint fuel a b g = Ok (r, g') → a ≤ r ≤ b.
Proof.
  unfold randint, randrange, randbelow. case_decide; [|discriminate].
  destruct (randbelow_loop _ _ _ g) as [[r0 g1]|e] eqn:E; [|discriminate].
  intros [= <- _]. apply randbelow_loop_range in E. lia.
Qed.

(** More fuel does not change a result. *)
Lemma randbelow_loop_mono fuel fuel' n k g x :
  (fuel ≤ fuel')%nat →
  randbelow_loop fuel n k g = Ok x → randbelow_loop fuel' n k g = Ok x.
Proof.
  revert fuel' g. induction fuel as [|fuel IH]; intros fuel' g Hle;
    cbn [randbelow_loop]; [discriminate|].
  destruct fuel' as [|fuel']; [lia|]. cbn [randbelow_loop].
  destruct (getrandbits k g) as [[r0 g1]|e]; [|discriminate].
  case_decide; [apply IH; lia|done].
Qed.

Lemma randint_mono fuel fuel' a b g x :
  (fuel ≤ fuel')%nat →
  randint fuel a b g = Ok x → randint fuel' a b g = Ok x.
Proof.
  intros Hle. unfold randint, randrange, randbelow.
  case_decide; [|discriminate].
  destruct (randbelow_loop fuel _ _ g) as [[r0 g1]|e] eqn:E; [|discriminate].
  rewrite (randbelow_loop_mono _ _ _ _ _ _ Hle E). done.
Qed.
End random_facts.

(** ** The generator *)

Section generator_facts.
Import PIL generate_test_images generate_test_images_runs.
Context `{Rasterizer}.

Lemma random_boxes_range fuel n width height g bs g' :
  random_boxes fuel n width height g = Ok (bs, g') →
  length bs = n ∧ Forall (box_ok width height) bs.
Proof.
  revert g bs g'. induction n as [|n IH]; intros g bs g'; cbn [random_boxes].
  - intros [= <- _]. split; [done|constructor].
  - destruct (PyRandom.randint fuel 0 width g) as [[x1 g1]|] eqn:E1; [|done].
    destruct (PyRandom.randint fuel 0 height g1) as [[y1 g2]|] eqn:E2; [|done].
    destruct (PyRandom.randint fuel 10 50 g2) as [[dx g3]|] eqn:E3; [|done].
    destruct (PyRandom.randint fuel 10 50 g3) as [[dy g4]|] eqn:E4; [|done].
    destruct (random_boxes fuel n width height g4) as [[bs' g5]|] eqn:E5; [|done].
    intros [= <- _]. destruct (IH _ _ _ E5) as [Hlen Hall].
    apply randint_range in E1, E2, E3, E4.
    split; [simpl; by f_equal|].
    constructor; [|done]. unfold box_ok. lia.
Qed.

Lemma random_boxes_mono fuel fuel' n width height g x :
  (fuel ≤ fuel')%nat →
  random_boxes fuel n width height g = Ok x →
  random_boxes fuel' n width height g = Ok x.
Proof.
  intros Hle. revert g x. induction n as [|n IH]; intros g x;
    cbn [random_boxes]; [done|].
  destruct (PyRandom.randint fuel 0 width g) as [[x1 g1]|] eqn:E1; [|done].
  destruct (PyRandom.randint fuel 0 height g1) as [[y1 g2]|] eqn:E2; [|done].
  destruct (PyRandom.randint fuel 10 50 g2) as [[dx g3]|] eqn:E3; [|done].
  destruct (PyRandom.randint fuel 10 50 g3) as [[dy g4]|] eqn:E4; [|done].
  destruct (random_boxes fuel n width height g4) as [[bs' g5]|] eqn:E5; [|done].
  rewrite (randint_mono _ _ _ _ _ _ Hle E1), (randint_mono _ _ _ _ _ _ Hle E2),
    (randint_mono _ _ _ _ _ _ Hle E3), (randint_mono _ _ _ _ _ _ Hle E4),
    (IH _ _ E5).
  done.
Qed.

Lemma boxes_seq_mono fuel fuel' k g x :
  (fuel ≤ fuel')%nat →
  boxes_seq fuel k g = Ok x → boxes_seq fuel' k g = Ok x.
Proof.
  intros Hle. revert g x. induction k as [|k IH]; intros g x;
    cbn [boxes_seq]; [done|].
  destruct (random_boxes fuel 5 400 300 g) as [[bs g1]|] eqn:E1; [|done].
  destruct (boxes_seq fuel k g1) as [[bss g2]|] eqn:E2; [|done].
  rewrite (random_boxes_mono _ _ _ _ _ _ _ Hle E1), (IH _ _ E2). done.
Qed.

(** The loop of [create_test_image] appends one filled rectangle per
    box, in the order drawn, and emits nothing. *)
Lemma random_elements_boxes fuel n width height shape_color image g :
  random_elements fuel n width height shape_color image g =
  match random_boxes fuel n width height g with
  | Ok (bs, g') =>
      Ok (mkImage (size image) (background image)
            (calls image ++ (fill_call shape_color <$> bs)), g', [])
  | Err e => Err e
  end.
Proof.
  revert image g. induction n as [|n IH]; intros image g;
    cbn [random_elements random_boxes].
  - unfold mret, Gen_ret, ret. destruct image. simpl. by rewrite app_nil_r.
  - unfold mbind, Gen_bind, bind, random_randint.
    destruct (PyRandom.randint fuel 0 width g) as [[x1 g1]|]; [|done].
    destruct (PyRandom.randint fuel 0 height g1) as [[y1 g2]|]; [|done].
    destruct (PyRandom.randint fuel 10 50 g2) as [[dx g3]|]; [|done].
    destruct (PyRandom.randint fuel 10 50 g3) as [[dy g4]|]; [|done].
    rewrite IH.
    destruct (random_boxes fuel n width height g4) as [[bs' g5]|]; [|done].
    unfold draw. cbn [size background calls fmap list_fmap].
    rewrite <- app_assoc. done.
Qed.

Lemma create_test_image_boxes fuel filename text width height color_scheme g :
  create_test_image fuel filename text width height color_scheme g =
  match random_boxes fuel 5 width height g with
  | Ok (bs, g') =>
      Ok (image_of text width height
            (default ((255, 255, 255), (0, 0, 0), (100, 150, 200)) color_scheme)
            bs, g', [])
  | Err e => Err e
  end.
Proof.
  unfold create_test_image, image_of.
  destruct color_scheme as [[[bg_color text_color] shape_color]|]; cbn [default];
    destruct (textbbox (0, 0) text) as [[[b0 b1] b2] b3];
    rewrite random_elements_boxes; done.
Qed.

(** The loop of [main] succeeds exactly when the draws do, and then
    emits the events of each test case in turn. *)
Lemma generate_boxes fuel cases g :
  generate fuel cases g =
  match boxes_seq fuel (length cases) g with
  | Ok (bss, g') => Ok (tt, g', render_events cases bss)
  | Err e => Err e
  end.
Proof.
  revert g. induction cases as [|tc cases IH]; intros g;
    cbn [generate boxes_seq length]; [done|].
  unfold mbind, Gen_bind, bind, print, save, emit.
  rewrite create_test_image_boxes. cbn [default].
  destruct (random_boxes fuel 5 400 300 g) as [[bs g1]|]; [|done].
  rewrite IH.
  destruct (boxes_seq fuel (length cases) g1) as [[bss g2]|]; [|done].
  done.
Qed.

Lemma set_seed_run test_scenario g :
  ∃ msg,
    set_seed test_scenario g =
    Ok (tt, PyRandom.seed (if decide (test_scenario = "changed") then 123 else 42),
        [RandomSeed (if decide (test_scenario = "changed") then 123 else 42);
         Print msg]).
Proof. unfold set_seed. case_decide; eexists; reflexivity. Qed.

Lemma modify_test_cases_run test_scenario g :
  ∃ msgs,
    Forall is_print msgs ∧
    modify_test_cases test_scenario test_cases g =
    Ok (modified_test_cases test_scenario, g, msgs).
Proof.
  unfold modified_test_cases, modify_test_cases.
  repeat case_decide.
  - eexists [_]. split; [|reflexivity]. by repeat constructor.
  - eexists [_]. split; [|reflexivity]. by repeat constructor.
  - exists []. split; [constructor|reflexivity].
Qed.

Lemma modified_test_cases_length test_scenario :
  length (modified_test_cases test_scenario) = 3%nat.
Proof.
  unfold modified_test_cases, modify_test_cases. by repeat case_decide.
Qed.

(** [main] as a whole: the prologue, the loop started from the freshly
    seeded generator, the closing message. *)
Lemma main_unfold fuel environ g :
  let s := scenario_of environ in
  let n := if decide (s = "changed") then 123 else 42 in
  ∃ msgs,
    Forall is_print msgs ∧
    main fuel environ g =
    match generate fuel (modified_test_cases s) (PyRandom.seed n) with
    | Ok (_, g', evs) =>
        Ok (tt, g',
            [Makedirs "outputs";
             Print ("Generating images for scenario: " +:+ s);
             RandomSeed n] ++ msgs ++ evs ++
            [Print ("Test image generation completed for scenario: "
                    +:+ s +:+ "!")])
    | Err e => Err e
    end.
Proof.
  intros s n. unfold main. fold (scenario_of environ). fold s.
  destruct (set_seed_run s g) as [msg Hseed]. fold n in Hseed.
  destruct (modify_test_cases_run s (PyRandom.seed n)) as (msgs & Hmsgs & Hmod).
  exists (Print msg :: msgs). split; [by constructor|].
  unfold mbind, Gen_bind, bind, makedirs, print, emit.
  rewrite Hseed, Hmod.
  destruct (generate fuel (modified_test_cases s) (PyRandom.seed n))
    as [[[[] g1] evs]|]; [|done].
  done.
Qed.



Lemma saved_app evs1 evs2 : saved (evs1 ++ evs2) = saved evs1 ++ saved evs2.
Proof. apply omap_app. Qed.

Lemma seeds_app evs1 evs2 : seeds (evs1 ++ evs2) = seeds evs1 ++ seeds evs2.
Proof. apply omap_app. Qed.

Lemma saved_prints msgs : Forall is_print msgs → saved msgs = [].
Proof.
  induction 1 as [|e msgs He _ IH]; [done|]. by destruct e.
Qed.

Lemma seeds_prints msgs : Forall is_print msgs → seeds msgs = [].
Proof.
  induction 1 as [|e msgs He _ IH]; [done|]. by destruct e.
Qed.

Lemma seeds_render_events cases bss : seeds (render_events cases bss) = [].
Proof.
  revert bss. induction cases as [|tc cases IH]; intros [|bs bss]; try done.
  cbn [render_events]. rewrite seeds_app, IH. done.
Qed.

Lemma saved_render_events cases bss :
  length bss = length cases →
  saved (render_events cases bss) =
  zip_with (λ tc bs, (path_join "outputs" (filename tc),
                      image_of (text tc) 400 300 (color_scheme tc) bs))
    cases bss.
Proof.
  revert bss. induction cases as [|tc cases IH]; intros [|bs bss] Hlen;
    try done.
  cbn [render_events]. rewrite saved_app, IH by (simpl in Hlen; lia). done.
Qed.
End generator_facts.

(** The draws of the two seeds, computed. *)
Section computed_draws.
Import generate_test_images_runs.

Lemma boxes_seq_42 :
result_map fst (boxes_seq 4 3 (PyRandom.seed 42)) = Ok boxes_42.
Proof. vm_compute. reflexivity. Qed.

Lemma boxes_seq_123 :
result_map fst (boxes_seq 4 3 (PyRandom.seed 123)) = Ok boxes_123.
Proof. vm_compute. reflexivity. Qed.

Lemma boxes_seq_scenario fuel s :
(4 ≤ fuel)%nat →
∃ g', boxes_seq fuel 3
        (PyRandom.seed (if decide (s = "changed") then 123 else 42))
      = Ok (scenario_boxes s, g').
Proof.
intros Hfuel. unfold scenario_boxes. case_decide.
- pose proof boxes_seq_123 as Hb.
  destruct (boxes_seq 4 3 (PyRandom.seed 123)) as [[bss g']|] eqn:E; [|done].
  injection Hb as ->. exists g'. by apply (boxes_seq_mono 4).
- pose proof boxes_seq_42 as Hb.
  destruct (boxes_seq 4 3 (PyRandom.seed 42)) as [[bss g']|] eqn:E; [|done].
  injection Hb as ->. exists g'. by apply (boxes_seq_mono 4).
Qed.

End computed_draws.

Section generator_runs.
Import PIL PILSpec generate_test_images generate_test_images_runs.
Context `{Rasterizer}.

(** With fuel for four draws per random number, [main] returns, for
    every environment and every initial state of the generator. *)
Lemma main_run fuel environ g :
  (4 ≤ fuel)%nat →
  let s := scenario_of environ in
  let n := if decide (s = "changed") then 123 else 42 in
  ∃ msgs g',
    Forall is_print msgs ∧
    main fuel environ g =
    Ok (tt, g',
        [Makedirs "outputs";
         Print ("Generating images for scenario: " +:+ s);
         RandomSeed n] ++ msgs ++
        render_events (modified_test_cases s) (scenario_boxes s) ++
        [Print ("Test image generation completed for scenario: "
                +:+ s +:+ "!")]).
Proof.
  intros Hfuel s n.
  destruct (main_unfold fuel environ g) as (msgs & Hmsgs & Hmain).
  fold s in Hmain. fold n in Hmain.
  destruct (boxes_seq_scenario fuel s Hfuel) as [g' Hboxes]. fold n in Hboxes.
  rewrite generate_boxes, modified_test_cases_length, Hboxes in Hmain.
  by exists msgs, g'.
Qed.

(** After the filled rectangles, a pixel covered by one of them has
    their colour, the others keep theirs. *)
Lemma paint_fill_calls shape_color bs x y c :
  paint_all (fill_call shape_color <$> bs) x y c =
  if existsb (λ b, in_box b x y) bs then shape_color else c.
Proof.
  revert c. induction bs as [|b bs IH]; intros c; [done|].
  cbn [fmap list_fmap existsb]. unfold paint_all in *. cbn [foldl].
  rewrite IH. cbn [paint fill_call].
  by destruct (in_box b x y), (existsb _ bs).
Qed.

(** The random rectangles are drawn last: a pixel of the canvas under
    one of them has the shape colour, whatever the text and the ellipse
    look like. *)
Lemma getpixel_random_rectangle text width height bg tc sc bs x y :
  0 ≤ x < width → 0 ≤ y < height →
  existsb (λ b, in_box b x y) bs = true →
  getpixel (image_of text width height (bg, tc, sc) bs) x y = Some sc.
Proof.
  intros Hx Hy Hcover. unfold getpixel, image_of.
  destruct (textbbox (0, 0) text) as [[[b0 b1] b2] b3].
  cbn [size calls background]. rewrite bool_decide_eq_true_2 by done.
  unfold paint_all. rewrite foldl_app.
  pose proof (paint_fill_calls sc bs x y) as Hp. unfold paint_all in Hp.
  by rewrite Hp, Hcover.
Qed.

Lemma scenario_boxes_length s : length (scenario_boxes s) = 3%nat.
Proof. unfold scenario_boxes. by case_decide. Qed.

(** The files saved by such a run: one per test case, in order. *)
Lemma saved_main_events a b n msgs cases bss c :
  Forall is_print msgs →
  length bss = length cases →
  saved ([Makedirs a; Print b; RandomSeed n] ++ msgs ++
         render_events cases bss ++ [Print c]) =
  zip_with (λ tc bs, (path_join "outputs" (filename tc),
                      image_of (text tc) 400 300 (color_scheme tc) bs))
    cases bss.
Proof.
  intros Hmsgs Hlen.
  rewrite !saved_app, (saved_prints msgs Hmsgs), saved_render_events by done.
  change (saved [Makedirs a; Print b; RandomSeed n]) with (@nil (string * Image)).
  change (saved [Print c]) with (@nil (string * Image)).
  by rewrite app_nil_r.
Qed.
End generator_runs.

(** ** Claims about the generator *)

Section generator_claims.
Import PIL PILSpec generate_test_images generate_test_images_runs.
Context `{Rasterizer}.

(** C1, as stated, fails.  The claim has the [mixed] scenario override
    two of the three descriptors.  The block of [main] for [mixed]
    changes one position of the list only, the first, so the number of
    overridden descriptors is not two. *)
Lemma C1_two_descriptors_overridden_counterexample :
  overridden test_cases (modified_test_cases "mixed") = [0%nat] ∧
  length (overridden test_cases (modified_test_cases "mixed")) ≠ 2%nat.
Proof. split; [vm_compute; reflexivity | vm_compute; discriminate]. Qed.

(** C1, amended.  For the [mixed] scenario [main] seeds the generator
    with the baseline seed 42, and overrides the text and the colour
    scheme of exactly one descriptor, the first; the other two are
    rendered as they stand in the hardcoded list.  The first two parts
    are the two blocks of [main], the third is [main] as a whole: its
    loop runs over the modified list from the state left by
    [random.seed(42)]. *)
Theorem C1_mixed_overrides_first_descriptor (fuel : nat)
    (g : PyRandom.state) :
  set_seed "mixed" g =
    Ok (tt, PyRandom.seed 42,
        [RandomSeed 42; Print "Using baseline seed for consistent images"]) ∧
  modify_test_cases "mixed" test_cases g =
    Ok (modified_test_cases "mixed", g,
        [Print "Applied mixed changes - some images will pass, some will fail"]) ∧
  (∃ msgs,
     Forall is_print msgs ∧
     main fuel {["TEST_SCENARIO" := "mixed"]} g =
     match generate fuel (modified_test_cases "mixed") (PyRandom.seed 42) with
     | Ok (_, g', evs) =>
         Ok (tt, g',
             [Makedirs "outputs";
              Print "Generating images for scenario: mixed";
              RandomSeed 42] ++ msgs ++ evs ++
             [Print "Test image generation completed for scenario: mixed!"])
     | Err e => Err e
     end) ∧
  modified_test_cases "mixed" !! 0%nat =
    Some (mkCase "ui-main-screen.png" "Main Screen UI - CHANGED"
            ((255, 255, 255), (0, 0, 0), (200, 100, 150))) ∧
  test_cases !! 0%nat =
    Some (mkCase "ui-main-screen.png" "Main Screen UI"
            ((255, 255, 255), (0, 0, 0), (100, 150, 200))) ∧
  modified_test_cases "mixed" !! 1%nat = test_cases !! 1%nat ∧
  modified_test_cases "mixed" !! 2%nat = test_cases !! 2%nat ∧
  length (modified_test_cases "mixed") = 3%nat ∧
  overridden test_cases (modified_test_cases "mixed") = [0%nat].
Proof.
  split; [|split; [|split]].
  - unfold set_seed. case_decide; [discriminate | reflexivity].
  - reflexivity.
  - destruct (main_unfold fuel {["TEST_SCENARIO" := "mixed"]} g)
      as (msgs & Hmsgs & Hmain).
    exists msgs. split; [done|]. exact Hmain.
  - repeat split; vm_compute; reflexivity.
Qed.

(** C3.  For every value of the scenario, [main] is: the directory
    creation and a message, then [random.seed(n)] with [n] equal to 123
    when the scenario is [changed] and to 42 otherwise (so for
    [baseline] and for [mixed]), then messages only, then the rendering
    loop, which starts from the state [random.seed(n)] leaves whatever
    the state was before, and which does not seed again. *)
Theorem C3_seed_set_before_rendering (fuel : nat)
    (environ : gmap string string) (g : PyRandom.state) :
  let s := scenario_of environ in
  let n := if decide (s = "changed") then 123 else 42 in
  ∃ msgs,
    Forall is_print msgs ∧
    main fuel environ g =
    match generate fuel (modified_test_cases s) (PyRandom.seed n) with
    | Ok (_, g', evs) =>
        Ok (tt, g',
            [Makedirs "outputs";
             Print ("Generating images for scenario: " +:+ s);
             RandomSeed n] ++ msgs ++ evs ++
            [Print ("Test image generation completed for scenario: "
                    +:+ s +:+ "!")])
    | Err e => Err e
    end ∧
    (∀ cases g0 g' evs,
       generate fuel cases g0 = Ok (tt, g', evs) → seeds evs = []) ∧
    (s = "baseline" ∨ s = "mixed" → n = 42) ∧
    (s = "changed" → n = 123).
Proof.
  intros s n.
  destruct (main_unfold fuel environ g) as (msgs & Hmsgs & Hmain).
  exists msgs. split; [done|]. split; [exact Hmain|]. split; [|split].
  - intros cases g0 g' evs. rewrite generate_boxes.
    destruct (boxes_seq _ _ g0) as [[bss g1]|]; [|done].
    intros [= _ <-]. apply seeds_render_events.
  - unfold n. intros [-> | ->]; by case_decide.
  - unfold n. intros ->. by case_decide.
Qed.

(** C4.  For every environment, so for every scenario, [main] returns
    and saves exactly three files, [outputs/ui-main-screen.png],
    [outputs/ui-settings-dialog.png] and [outputs/ui-dashboard.png], in
    this order; the file names of the test cases are those of the
    hardcoded list whatever the scenario. *)
Theorem C4_three_files_saved (fuel : nat) (environ : gmap string string)
    (g : PyRandom.state) :
  (4 ≤ fuel)%nat →
  ∃ g' evs,
    main fuel environ g = Ok (tt, g', evs) ∧
    (saved evs).*1 =
      ["outputs/ui-main-screen.png"; "outputs/ui-settings-dialog.png";
       "outputs/ui-dashboard.png"] ∧
    filename <$> modified_test_cases (scenario_of environ) =
      ["ui-main-screen.png"; "ui-settings-dialog.png"; "ui-dashboard.png"] ∧
    filename <$> test_cases =
      ["ui-main-screen.png"; "ui-settings-dialog.png"; "ui-dashboard.png"].
Proof.
  intros Hfuel.
  destruct (main_run fuel environ g Hfuel) as (msgs & g' & Hmsgs & Hmain).
  eexists g', _. split; [exact Hmain|].
  assert (filename <$> modified_test_cases (scenario_of environ) =
          ["ui-main-screen.png"; "ui-settings-dialog.png"; "ui-dashboard.png"])
    as Hnames.
  { unfold modified_test_cases, modify_test_cases. by repeat case_decide. }
  split; [|by split].
  rewrite saved_main_events
    by (done || by rewrite modified_test_cases_length, scenario_boxes_length).
  unfold modified_test_cases, modify_test_cases, scenario_boxes.
  by repeat case_decide.
Qed.


(** C10.  A value of [TEST_SCENARIO] other than [changed] and [mixed],
    the variable being unset included, is never rejected: [main]
    returns, seeds the generator with 42 and with nothing else, renders
    the hardcoded test cases unmodified, and saves the same images under
    the same names as it does for [baseline].  These are three images,
    under the three names of the hardcoded list: the image of each
    hardcoded test case with the random rectangles that seed 42 gives
    it. *)
Theorem C10_other_values_as_baseline (fuel : nat)
    (environ : gmap string string) (g : PyRandom.state) :
  (4 ≤ fuel)%nat →
  environ !! "TEST_SCENARIO" ≠ Some "changed" →
  environ !! "TEST_SCENARIO" ≠ Some "mixed" →
  ∃ g' evs evs_baseline,
    main fuel environ g = Ok (tt, g', evs) ∧
    main fuel {["TEST_SCENARIO" := "baseline"]} g = Ok (tt, g', evs_baseline) ∧
    seeds evs = [42] ∧
    modified_test_cases (scenario_of environ) = test_cases ∧
    saved evs = saved evs_baseline ∧
    length (saved evs) = 3%nat ∧
    (saved evs).*1 =
      ["outputs/ui-main-screen.png"; "outputs/ui-settings-dialog.png";
       "outputs/ui-dashboard.png"] ∧
    saved evs =
      zip_with (λ tc bs, (path_join "outputs" (filename tc),
                          image_of (text tc) 400 300 (color_scheme tc) bs))
        test_cases boxes_42.
Proof.
  intros Hfuel Hc Hm.
  assert (scenario_of environ ≠ "changed" ∧ scenario_of environ ≠ "mixed")
    as [Hc' Hm'].
  { unfold scenario_of. destruct (environ !! "TEST_SCENARIO") as [v|];
      simpl; split; congruence. }
  assert (modified_test_cases (scenario_of environ) = test_cases) as Hcases.
  { unfold modified_test_cases, modify_test_cases. by repeat case_decide. }
  destruct (main_unfold fuel environ g) as (msgs & Hmsgs & Hmain).
  destruct (main_unfold fuel {["TEST_SCENARIO" := "baseline"]} g)
    as (msgs_b & Hmsgs_b & Hmain_b).
  cbn zeta in Hmain, Hmain_b.
  replace (scenario_of {["TEST_SCENARIO" := "baseline"]}) with "baseline"
    in Hmain_b by reflexivity.
  rewrite Hcases in Hmain.
  replace (modified_test_cases "baseline") with test_cases in Hmain_b
    by reflexivity.
  destruct (decide (scenario_of environ = "changed")); [done|].
  destruct (decide ("baseline" = "changed")); [done|].
  rewrite generate_boxes in Hmain, Hmain_b.
  destruct (boxes_seq_scenario fuel "baseline" Hfuel) as [g' Hboxes].
  destruct (decide ("baseline" = "changed")); [done|].
  change (length test_cases) with 3%nat in Hmain, Hmain_b.
  rewrite Hboxes in Hmain, Hmain_b.
  eexists g', _, _. split; [exact Hmain|]. split; [exact Hmain_b|].
  split; [|split; [done|]].
  - rewrite !seeds_app, (seeds_prints msgs Hmsgs), seeds_render_events.
    reflexivity.
  - split.
    + rewrite !saved_app, (saved_prints msgs Hmsgs),
        (saved_prints msgs_b Hmsgs_b).
      reflexivity.
    + rewrite saved_main_events by done. by repeat split.
Qed.

(** C2.  Take a run of [main] for [mixed] and one for [baseline].  Both
    return and save three images under the same three names.  The first
    image of the mixed run differs from the first of the baseline run in
    at least one pixel, for every rendering of text and ellipses; the
    second and the third are pixel for pixel those of the baseline
    run. *)
Theorem C2_mixed_one_image_differs (fuel : nat)
    (env_mixed env_baseline : gmap string string)
    (g_mixed g_baseline : PyRandom.state) :
  (4 ≤ fuel)%nat →
  env_mixed !! "TEST_SCENARIO" = Some "mixed" →
  scenario_of env_baseline = "baseline" →
  ∃ g1 evs_mixed g2 evs_baseline p0 p1 p2 m0 m1 m2 b0 b1 b2,
    main fuel env_mixed g_mixed = Ok (tt, g1, evs_mixed) ∧
    main fuel env_baseline g_baseline = Ok (tt, g2, evs_baseline) ∧
    saved evs_mixed = [(p0, m0); (p1, m1); (p2, m2)] ∧
    saved evs_baseline = [(p0, b0); (p1, b1); (p2, b2)] ∧
    ¬ pixel_identical m0 b0 ∧
    pixel_identical m1 b1 ∧
    pixel_identical m2 b2.
Proof.
  intros Hfuel Hm Hb.
  assert (scenario_of env_mixed = "mixed") as Hm'.
  { unfold scenario_of. by rewrite Hm. }
  destruct (main_run fuel env_mixed g_mixed Hfuel)
    as (msgs1 & g1 & Hmsgs1 & Hmain1).
  destruct (main_run fuel env_baseline g_baseline Hfuel)
    as (msgs2 & g2 & Hmsgs2 & Hmain2).
  cbn zeta in Hmain1, Hmain2. rewrite Hm' in Hmain1. rewrite Hb in Hmain2.
  set (first := [(327, 57, 338, 84); (125, 114, 143, 130);
                 (346, 279, 361, 326); (216, 16, 227, 31);
                 (111, 119, 153, 167)]).
  pose (m0 := image_of "Main Screen UI - CHANGED" 400 300
                ((255, 255, 255), (0, 0, 0), (200, 100, 150)) first).
  pose (b0 := image_of "Main Screen UI" 400 300
                ((255, 255, 255), (0, 0, 0), (100, 150, 200)) first).
  eexists g1, _, g2, _, _, _, _, m0, _, _, b0, _, _.
  split; [exact Hmain1|]. split; [exact Hmain2|].
  rewrite !saved_main_events by done.
  split; [reflexivity|]. split; [reflexivity|].
  split; [|by split].
  intros [_ Hpx]. specialize (Hpx 327 57). unfold m0, b0 in Hpx.
  rewrite !getpixel_random_rectangle in Hpx by (lia || reflexivity).
  discriminate.
Qed.

(** C8, amended.  Each of the five random filled rectangles of an image
    rendered by [create_test_image] has its first corner on the canvas,
    borders included, and sides of 10 to 50:
    [0 <= x1 <= width], [0 <= y1 <= height], [x1 + 10 <= x2 <= x1 + 50]
    and [y1 + 10 <= y2 <= y1 + 50].  The second corner may thus lie up
    to 50 beyond the canvas. *)
Theorem C8_random_rectangles_bounds (fuel : nat) (filename text : string)
    (width height : Z) (color_scheme : option color_scheme_t)
    (g : PyRandom.state) (im : Image) :
  value (create_test_image fuel filename text width height color_scheme g)
    = Ok im →
  ∃ shape_color bs,
    length bs = 5%nat ∧
    drop 3 (calls im) = fill_call shape_color <$> bs ∧
    Forall (box_ok width height) bs.
Proof.
  unfold value. rewrite create_test_image_boxes.
  destruct (random_boxes fuel 5 width height g) as [[bs g1]|] eqn:E; [|done].
  cbn [result_map fst]. intros [= <-].
  apply random_boxes_range in E as [Hlen Hall].
  destruct (default ((255, 255, 255), (0, 0, 0), (100, 150, 200)) color_scheme)
    as [[bg tc] sc].
  exists sc, bs. unfold image_of.
  destruct (textbbox (0, 0) text) as [[[b0 b1] b2] b3]. by cbn.
Qed.

(** C9, amended.  [create_test_image] draws, in this order: the border
    rectangle, the inner ellipse, the centred caption text, and then the
    five random filled rectangles, which are the last elements drawn. *)
Theorem C9_drawing_order (fuel : nat) (filename text : string)
    (width height : Z) (color_scheme : option color_scheme_t)
    (g : PyRandom.state) (im : Image) :
  value (create_test_image fuel filename text width height color_scheme g)
    = Ok im →
  ∃ bg_color text_color shape_color b0 b1 b2 b3 bs,
    default ((255, 255, 255), (0, 0, 0), (100, 150, 200)) color_scheme
      = (bg_color, text_color, shape_color) ∧
    textbbox (0, 0) text = (b0, b1, b2, b3) ∧
    length bs = 5%nat ∧
    calls im =
      [DrawRectangle (50, 50, width - 50, height - 50)
         None (Some shape_color) 3;
       DrawEllipse (100, 100, width - 100, height - 100)
         None (Some shape_color) 2;
       DrawText ((width - (b2 - b0)) `div` 2, (height - (b3 - b1)) `div` 2)
         text text_color]
      ++ (fill_call shape_color <$> bs).
Proof.
  unfold value. rewrite create_test_image_boxes.
  destruct (random_boxes fuel 5 width height g) as [[bs g1]|] eqn:E; [|done].
  cbn [result_map fst]. intros [= <-].
  apply random_boxes_range in E as [Hlen Hall].
  destruct (default ((255, 255, 255), (0, 0, 0), (100, 150, 200)) color_scheme)
    as [[bg tc] sc].
  unfold image_of.
  destruct (textbbox (0, 0) text) as [[[b0 b1] b2] b3].
  by exists bg, tc, sc, b0, b1, b2, b3, bs.
Qed.
End generator_claims.

(** ** The runner *)

Section runner_facts.
Import test_scenarios test_scenarios_runs.
Context {World : Type}.
Context (path_exists : string → World → bool).
Context (rmtree : string → World → World).
Context (listdir : string → World → list string).
Context (subprocess_run :
           list string → gmap string string → World
           → CompletedProcess * World).

Abbreviation run_scenario :=
  (run_scenario path_exists rmtree listdir subprocess_run).
Abbreviation run_all := (run_all path_exists rmtree listdir subprocess_run).
Abbreviation main := (main path_exists rmtree listdir subprocess_run).
Abbreviation run_main := (run_main path_exists rmtree listdir subprocess_run).

Lemma invocations_app evs1 evs2 :
  invocations (evs1 ++ evs2) = invocations evs1 ++ invocations evs2.
Proof. apply omap_app. Qed.

Lemma invocations_cons_print line evs :
  invocations (Print line :: evs) = invocations evs.
Proof. reflexivity. Qed.

Lemma invocations_prints evs :
  forallb (λ e, match e with Print _ => true | _ => false end) evs = true →
  invocations evs = [].
Proof.
  induction evs as [|e evs IH]; [done|]. destruct e; [|done..].
  cbn [forallb andb]. by rewrite invocations_cons_print.
Qed.

(** One scenario: one child process, given the scenario in its
    environment; the result is whether it returned status 0. *)
Lemma run_scenario_spec environ scenario_name w :
  ∃ w' evs rc,
    run_scenario environ scenario_name w
      = (inl (bool_decide (rc = 0)), w', evs) ∧
    invocations evs = [(Some scenario_name, rc)].
Proof.
  unfold test_scenarios.run_scenario, mbind, IO_bind, bind, mret, IO_ret,
    ret, print, os_path_exists, os_listdir, when, shutil_rmtree,
    subprocess_run_capture.
  cbn.
  destruct (path_exists "outputs" w); cbn;
    (destruct (path_exists "diffs" _); cbn;
     (destruct (subprocess_run _ _ _) as [[rc out err] w1]; cbn;
      (case_decide as Hrc; cbn;
       [|destruct (path_exists "outputs" w1); cbn];
       eexists _, _, rc;
       (split;
        [rewrite ?bool_decide_eq_false_2, ?bool_decide_eq_true_2 by lia;
         reflexivity
        |cbn; by rewrite lookup_insert_eq])))).
Qed.

(** The loop: one child per scenario, in the order of the list, whatever
    the earlier ones returned; the flag stays set only if it was set and
    every child returned status 0. *)
Lemma run_all_spec environ scenarios success w :
  ∃ w' evs,
    run_all environ scenarios success w
      = (inl (success && forallb (λ i, bool_decide (i.2 = 0)) (invocations evs)),
         w', evs) ∧
    (invocations evs).*1 = Some <$> scenarios.
Proof.
  revert success w. induction scenarios as [|s rest IH]; intros success w.
  - exists w, []. split; [|done]. cbn. by rewrite andb_true_r.
  - cbn [test_scenarios.run_all]. unfold mbind, IO_bind, bind.
    destruct (run_scenario_spec environ s w) as (w1 & evs1 & rc & Hrun & Hinv).
    rewrite Hrun.
    destruct (IH (if negb (bool_decide (rc = 0)) then false else success) w1)
      as (w2 & evs2 & Hrest & Hinv2).
    rewrite Hrest. exists w2, (evs1 ++ evs2). split.
    + rewrite invocations_app, Hinv. cbn [app forallb snd].
      by destruct (bool_decide (rc = 0)), success.
    + rewrite invocations_app, Hinv, fmap_app, Hinv2. done.
Qed.

(** C5.  Called without arguments, the runner starts three child
    processes, for [baseline], [changed] and [mixed] in this order,
    whatever status each of them returns; it exits with status 0 if
    every child returned status 0, and with status 1 otherwise. *)
Theorem C5_runner_attempts_all_scenarios (argv : list string)
    (environ : gmap string string) (w : World) :
  (length argv ≤ 1)%nat →
  ∃ status w' evs,
    run_main argv environ w = (status, w', evs) ∧
    (invocations evs).*1 = [Some "baseline"; Some "changed"; Some "mixed"] ∧
    (status = 0 ↔ Forall (λ i, i.2 = 0) (invocations evs)) ∧
    (status ≠ 0 → status = 1).
Proof.
  intros Hargv. unfold test_scenarios.run_main, test_scenarios.main.
  destruct (decide (1 < length argv)%nat) as [|_]; [lia|].
  unfold mbind, IO_bind, bind, mret, IO_ret, ret, print. cbn.
  destruct (run_all_spec environ ["baseline"; "changed"; "mixed"] true w)
    as (w' & evs & Hrun & Hinv).
  cbn -[invocations rule append] in Hrun. rewrite Hrun.
  destruct (forallb _ (invocations evs)) eqn:Hall;
    cbn -[invocations rule append];
    eexists _, w', _; (split; [reflexivity|]);
    rewrite !invocations_cons_print, invocations_app,
      (invocations_prints (_ :: _)), app_nil_r by reflexivity;
    (split; [exact Hinv|]).
  - split; [|done]. split; [|done]. intros _.
    apply Is_true_true, forallb_True in Hall. eapply Forall_impl; [exact Hall|].
    intros i Hi. by apply bool_decide_unpack in Hi.
  - split; [|done]. split; [done|]. intros HF.
    assert (forallb (λ i, bool_decide (i.2 = 0)) (invocations evs) = true)
      as Habs; [|congruence].
    apply Is_true_true, forallb_True. eapply Forall_impl; [exact HF|].
    intros i Hi. by apply bool_decide_pack.
Qed.

(** C6.  Called with a first argument that is not one of [baseline],
    [changed] and [mixed], the runner prints the error with the valid
    choices and exits with status 1; it has then done nothing else: the
    world is as it was, and no directory was removed and no child
    process started. *)
Theorem C6_invalid_scenario_rejected (argv : list string)
    (environ : gmap string string) (w : World) (scenario : string) :
  argv !! 1%nat = Some scenario →
  scenario ∉ ["baseline"; "changed"; "mixed"] →
  run_main argv environ w =
    (1, w,
     [Print "Invalid scenario. Choose from: ['baseline', 'changed', 'mixed']"]) ∧
  deletions
    [Print "Invalid scenario. Choose from: ['baseline', 'changed', 'mixed']"]
    = [] ∧
  invocations
    [Print "Invalid scenario. Choose from: ['baseline', 'changed', 'mixed']"]
    = [].
Proof.
  intros Hargv Hbad. split; [|by split].
  unfold test_scenarios.run_main, test_scenarios.main.
  destruct (decide (1 < length argv)%nat) as [_|Hlen].
  2:{ apply lookup_lt_Some in Hargv. lia. }
  rewrite Hargv. change (default "" (Some scenario)) with scenario.
  destruct (decide (scenario ∉ ["baseline"; "changed"; "mixed"])); [|done].
  reflexivity.
Qed.
End runner_facts.

(** ** The claims at concrete inputs *)

Section concrete_runs.
Import PIL PILSpec generate_test_images generate_test_images_runs.

(** C8, as stated, fails.  The claim has every random rectangle lie
    within the canvas.  In the baseline scenario the third random
    rectangle of the first image, which is the sixth drawing call, has
    the box [(346, 279, 361, 326)] on a canvas 300 high. *)
Lemma C8_rectangle_within_canvas_counterexample :
  ∃ im,
    value (create_test_image (H := block_raster) 4 "ui-main-screen.png"
             "Main Screen UI" 400 300
             (Some ((255, 255, 255), (0, 0, 0), (100, 150, 200)))
             (PyRandom.seed 42)) = Ok im ∧
    calls im !! 5%nat =
      Some (DrawRectangle (346, 279, 361, 326) (Some (100, 150, 200)) None 1) ∧
    ¬ box_within 400 300 (346, 279, 361, 326).
Proof.
  eexists. split; [vm_compute; reflexivity|]. split; [reflexivity|].
  unfold box_within. lia.
Qed.

(** C9, as stated, fails.  The claim has the caption text drawn last,
    after the random rectangles.  For the first baseline image the text
    is the third of eight drawing calls, and the last call is a filled
    rectangle. *)
Lemma C9_text_drawn_last_counterexample :
  ∃ im,
    value (create_test_image (H := block_raster) 4 "ui-main-screen.png"
             "Main Screen UI" 400 300
             (Some ((255, 255, 255), (0, 0, 0), (100, 150, 200)))
             (PyRandom.seed 42)) = Ok im ∧
    length (calls im) = 8%nat ∧
    calls im !! 2%nat = Some (DrawText (158, 144) "Main Screen UI" (0, 0, 0)) ∧
    last (calls im) =
      Some (DrawRectangle (111, 119, 153, 167) (Some (100, 150, 200)) None 1) ∧
    ∀ xy s fill, last (calls im) ≠ Some (DrawText xy s fill).
Proof.
  eexists. split; [vm_compute; reflexivity|].
  repeat split; try reflexivity. intros xy s fill. discriminate.
Qed.

(** C2 at a concrete input: the mixed scenario against an empty environment, with the block rasteriser and fuel 4. *)
Lemma C2_mixed_one_image_differs_witness :
  (4 ≤ 4)%nat ∧
  ({["TEST_SCENARIO" := "mixed"]} : gmap string string) !! "TEST_SCENARIO"
    = Some "mixed" ∧
  scenario_of ∅ = "baseline" ∧
  ∃ g1 evs_mixed g2 evs_baseline p0 p1 p2 m0 m1 m2 b0 b1 b2,
    main (H := block_raster) 4 {["TEST_SCENARIO" := "mixed"]} (PyRandom.seed 0)
      = Ok (tt, g1, evs_mixed) ∧
    main (H := block_raster) 4 ∅ (PyRandom.seed 0) = Ok (tt, g2, evs_baseline) ∧
    saved evs_mixed = [(p0, m0); (p1, m1); (p2, m2)] ∧
    saved evs_baseline = [(p0, b0); (p1, b1); (p2, b2)] ∧
    ¬ pixel_identical (H := block_raster) m0 b0 ∧
    pixel_identical (H := block_raster) m1 b1 ∧
    pixel_identical (H := block_raster) m2 b2.
Proof.
  split; [lia|]. split; [reflexivity|]. split; [reflexivity|].
  apply (C2_mixed_one_image_differs (H := block_raster) 4
           {["TEST_SCENARIO" := "mixed"]} ∅ (PyRandom.seed 0) (PyRandom.seed 0));
    [lia | reflexivity | reflexivity].
Defined.

(** C4 at a concrete input: the changed scenario, with the block rasteriser and fuel 4. *)
Lemma C4_three_files_saved_witness :
  (4 ≤ 4)%nat ∧
  ∃ g' evs,
    main (H := block_raster) 4 {["TEST_SCENARIO" := "changed"]} (PyRandom.seed 0)
      = Ok (tt, g', evs) ∧
    (saved evs).*1 =
      ["outputs/ui-main-screen.png"; "outputs/ui-settings-dialog.png";
       "outputs/ui-dashboard.png"] ∧
    filename <$> modified_test_cases
                   (scenario_of {["TEST_SCENARIO" := "changed"]}) =
      ["ui-main-screen.png"; "ui-settings-dialog.png"; "ui-dashboard.png"] ∧
    filename <$> test_cases =
      ["ui-main-screen.png"; "ui-settings-dialog.png"; "ui-dashboard.png"].
Proof.
  split; [lia|].
  apply (C4_three_files_saved (H := block_raster) 4
           {["TEST_SCENARIO" := "changed"]} (PyRandom.seed 0)).
  lia.
Defined.


(** C8 at a concrete input: the first baseline image (seed 42). *)
Lemma C8_random_rectangles_bounds_witness :
  value (create_test_image (H := block_raster) 4 "ui-main-screen.png"
           "Main Screen UI" 400 300
           (Some ((255, 255, 255), (0, 0, 0), (100, 150, 200)))
           (PyRandom.seed 42))
    = Ok (image_of (H := block_raster) "Main Screen UI" 400 300
            ((255, 255, 255), (0, 0, 0), (100, 150, 200))
            [(327, 57, 338, 84); (125, 114, 143, 130); (346, 279, 361, 326);
             (216, 16, 227, 31); (111, 119, 153, 167)]) ∧
  ∃ shape_color bs,
    length bs = 5%nat ∧
    drop 3 (calls (image_of (H := block_raster) "Main Screen UI" 400 300
                     ((255, 255, 255), (0, 0, 0), (100, 150, 200))
                     [(327, 57, 338, 84); (125, 114, 143, 130);
                      (346, 279, 361, 326); (216, 16, 227, 31);
                      (111, 119, 153, 167)]))
      = fill_call shape_color <$> bs ∧
    Forall (box_ok 400 300) bs.
Proof.
  split; [vm_compute; reflexivity|].
  apply (C8_random_rectangles_bounds (H := block_raster) 4 "ui-main-screen.png"
           "Main Screen UI" 400 300
           (Some ((255, 255, 255), (0, 0, 0), (100, 150, 200)))
           (PyRandom.seed 42)).
  vm_compute. reflexivity.
Defined.

(** C9 at a concrete input: the third image of the changed seed (123), drawn with the default colours. *)
Lemma C9_drawing_order_witness :
  value (create_test_image (H := block_raster) 4 "ui-dashboard.png"
           "Dashboard View" 400 300 None (PyRandom.seed 123))
    = Ok (image_of (H := block_raster) "Dashboard View" 400 300
            ((255, 255, 255), (0, 0, 0), (100, 150, 200))
            [(26, 137, 41, 173); (136, 55, 148, 89); (274, 287, 305, 318);
             (26, 81, 44, 112); (287, 170, 312, 190)]) ∧
  ∃ bg_color text_color shape_color b0 b1 b2 b3 bs,
    default ((255, 255, 255), (0, 0, 0), (100, 150, 200)) None
      = (bg_color, text_color, shape_color) ∧
    textbbox (Rasterizer := block_raster) (0, 0) "Dashboard View"
      = (b0, b1, b2, b3) ∧
    length bs = 5%nat ∧
    calls (image_of (H := block_raster) "Dashboard View" 400 300
             ((255, 255, 255), (0, 0, 0), (100, 150, 200))
             [(26, 137, 41, 173); (136, 55, 148, 89); (274, 287, 305, 318);
              (26, 81, 44, 112); (287, 170, 312, 190)]) =
      [DrawRectangle (50, 50, 400 - 50, 300 - 50) None (Some shape_color) 3;
       DrawEllipse (100, 100, 400 - 100, 300 - 100) None (Some shape_color) 2;
       DrawText ((400 - (b2 - b0)) `div` 2, (300 - (b3 - b1)) `div` 2)
         "Dashboard View" text_color]
      ++ (fill_call shape_color <$> bs).
Proof.
  split; [vm_compute; reflexivity|].
  apply (C9_drawing_order (H := block_raster) 4 "ui-dashboard.png"
           "Dashboard View" 400 300 None (PyRandom.seed 123)).
  vm_compute. reflexivity.
Defined.

(** C10 at a concrete input: the value [nightly] of [TEST_SCENARIO]. *)
Lemma C10_other_values_as_baseline_witness :
  (4 ≤ 4)%nat ∧
  ({["TEST_SCENARIO" := "nightly"]} : gmap string string) !! "TEST_SCENARIO"
    ≠ Some "changed" ∧
  ({["TEST_SCENARIO" := "nightly"]} : gmap string string) !! "TEST_SCENARIO"
    ≠ Some "mixed" ∧
  ∃ g' evs evs_baseline,
    main (H := block_raster) 4 {["TEST_SCENARIO" := "nightly"]} (PyRandom.seed 0)
      = Ok (tt, g', evs) ∧
    main (H := block_raster) 4 {["TEST_SCENARIO" := "baseline"]} (PyRandom.seed 0)
      = Ok (tt, g', evs_baseline) ∧
    seeds evs = [42] ∧
    modified_test_cases (scenario_of {["TEST_SCENARIO" := "nightly"]})
      = test_cases ∧
    saved evs = saved evs_baseline ∧
    length (saved evs) = 3%nat ∧
    (saved evs).*1 =
      ["outputs/ui-main-screen.png"; "outputs/ui-settings-dialog.png";
       "outputs/ui-dashboard.png"] ∧
    saved evs =
      zip_with (λ tc bs, (path_join "outputs" (filename tc),
                          image_of (H := block_raster) (text tc) 400 300
                            (color_scheme tc) bs))
        test_cases boxes_42.
Proof.
  split; [lia|]. split; [vm_compute; discriminate|].
  split; [vm_compute; discriminate|].
  apply (C10_other_values_as_baseline (H := block_raster) 4
           {["TEST_SCENARIO" := "nightly"]} (PyRandom.seed 0));
    [lia | vm_compute; discriminate | vm_compute; discriminate].
Defined.
End concrete_runs.

Section concrete_runner.
Import test_scenarios test_scenarios_runs.

(** C5 at a concrete input: no argument, in a world where the child fails for [changed]. *)
Lemma C5_runner_attempts_all_scenarios_witness :
  (length ["test_scenarios.py"] ≤ 1)%nat ∧
  ∃ status w' evs,
    sim_main ["changed"] ["test_scenarios.py"] ∅ ∅ = (status, w', evs) ∧
    (invocations evs).*1 = [Some "baseline"; Some "changed"; Some "mixed"] ∧
    (status = 0 ↔ Forall (λ i, i.2 = 0) (invocations evs)) ∧
    (status ≠ 0 → status = 1).
Proof.
  split; [simpl; lia|].
  apply (C5_runner_attempts_all_scenarios sim_path_exists sim_rmtree
           sim_listdir (sim_subprocess_run ["changed"])
           ["test_scenarios.py"] ∅ ∅).
  simpl. lia.
Defined.

(** C6 at a concrete input: the argument [nightly], with an [outputs] directory in place. *)
Lemma C6_invalid_scenario_rejected_witness :
  ["test_scenarios.py"; "nightly"] !! 1%nat = Some "nightly" ∧
  ("nightly" ∉ ["baseline"; "changed"; "mixed"]) ∧
  sim_main [] ["test_scenarios.py"; "nightly"] ∅
    ({["outputs" := ["old.png"]]} : dirs) =
    (1, ({["outputs" := ["old.png"]]} : dirs),
     [Print "Invalid scenario. Choose from: ['baseline', 'changed', 'mixed']"]) ∧
  deletions
    [Print "Invalid scenario. Choose from: ['baseline', 'changed', 'mixed']"]
    = [] ∧
  invocations
    [Print "Invalid scenario. Choose from: ['baseline', 'changed', 'mixed']"]
    = [].
Proof.
  split; [reflexivity|].
  split; [apply (bool_decide_unpack _); vm_compute; exact I|].
  apply (C6_invalid_scenario_rejected sim_path_exists sim_rmtree
           sim_listdir (sim_subprocess_run [])
           ["test_scenarios.py"; "nightly"] ∅ {["outputs" := ["old.png"]]}
           "nightly");
    [reflexivity | apply (bool_decide_unpack _); vm_compute; exact I].
Defined.
End concrete_runner.


(** ** Further properties of the generator *)

Section generator_extras.
Import PIL PILSpec generate_test_images generate_test_images_runs.
Import generate_test_images_views.
Context `{Rasterizer}.

Lemma filled_boxes_image_of text width height cs bs :
  filled_boxes (image_of text width height cs bs) = bs.
Proof.
  unfold filled_boxes, image_of. destruct cs as [[bg tc] sc].
  destruct (textbbox (0, 0) text) as [[[b0 b1] b2] b3].
  cbn [calls]. rewrite omap_app.
  change (omap _ [_; _; _]) with (@nil box). cbn [app].
  induction bs as [|b bs IH]; [done|].
  cbn [fmap list_fmap]. change (omap ?f (?x :: ?l)) with
    (match f x with Some y => y :: omap f l | None => omap f l end).
  cbn [fill_call]. by rewrite IH.
Qed.

(** The random rectangles are drawn last and are opaque: a pixel of the
    canvas inside the box of one of them has the shape colour in the
    image returned, whatever the caption and the ellipse painted there
    before. *)
Theorem random_rectangle_paints_over (fuel : nat) (filename text : string)
    (width height : Z) (color_scheme : option color_scheme_t)
    (g : PyRandom.state) (im : Image) (i : nat) (b : box) (x y : Z) :
  let shape_color :=
    (default ((255, 255, 255), (0, 0, 0), (100, 150, 200)) color_scheme).2 in
  value (create_test_image fuel filename text width height color_scheme g)
    = Ok im →
  calls im !! i = Some (DrawRectangle b (Some shape_color) None 1) →
  0 ≤ x < width → 0 ≤ y < height →
  in_box b x y = true →
  getpixel im x y = Some shape_color.
Proof.
  intros sc. subst sc. unfold value. rewrite create_test_image_boxes.
  destruct (random_boxes fuel 5 width height g) as [[bs g1]|]; [|done].
  cbn [result_map fst]. intros [= <-].
  destruct (default ((255, 255, 255), (0, 0, 0), (100, 150, 200)) color_scheme)
    as [[bg tc] sc].
  cbn [snd]. intros Hcall Hx Hy Hin.
  apply getpixel_random_rectangle; [done..|].
  apply existsb_exists. exists b. split; [|done].
  apply list_elem_of_In.
  unfold image_of in Hcall.
  destruct (textbbox (0, 0) text) as [[[b0 b1] b2] b3]. cbn [calls] in Hcall.
  destruct i as [|[|[|i]]]; try discriminate Hcall.
  change ((fill_call sc <$> bs) !! i
          = Some (DrawRectangle b (Some sc) None 1)) in Hcall.
  rewrite list_lookup_fmap in Hcall.
  destruct (bs !! i) as [b'|] eqn:Hb; [|discriminate].
  cbn in Hcall. injection Hcall as ->.
  by eapply list_elem_of_lookup_2.
Qed.

(** The draws of [create_test_image] do not depend on the descriptor:
    for the same canvas size and the same state of the random generator,
    two calls with any file names, captions and colour schemes fail
    alike or leave the generator in the same state and give the random
    rectangles the same boxes; no call emits an event. *)
Theorem create_test_image_draws_ignore_descriptor (fuel : nat)
    (filename1 text1 filename2 text2 : string) (width height : Z)
    (color_scheme1 color_scheme2 : option color_scheme_t)
    (g : PyRandom.state) :
  let r1 := create_test_image fuel filename1 text1 width height color_scheme1 g in
  let r2 := create_test_image fuel filename2 text2 width height color_scheme2 g in
  state_after r1 = state_after r2 ∧
  result_map filled_boxes (value r1) = result_map filled_boxes (value r2) ∧
  emitted r1 = result_map (λ _, []) r1.
Proof.
  intros r1 r2. subst r1 r2.
  unfold state_after, value, emitted. rewrite !create_test_image_boxes.
  destruct (random_boxes fuel 5 width height g) as [[bs g1]|]; [|done].
  cbn [result_map fst snd]. by rewrite !filled_boxes_image_of.
Qed.

(** On a canvas of 400 by 300 the first corner of the border shows the
    shape colour whenever ellipse and caption leave it alone: a random
    rectangle over it has the same colour. *)
Lemma getpixel_border_corner text bg tc sc bs :
  corner_untouched text →
  getpixel (image_of text 400 300 (bg, tc, sc) bs) 50 50 = Some sc.
Proof.
  intros [Hellipse Htext]. unfold getpixel, image_of.
  unfold caption_position in Htext.
  destruct (textbbox (0, 0) text) as [[[b0 b1] b2] b3].
  cbn [size calls background]. rewrite bool_decide_eq_true_2 by lia.
  unfold paint_all. rewrite foldl_app.
  pose proof (paint_fill_calls sc bs 50 50) as Hp. unfold paint_all in Hp.
  rewrite Hp. cbn [foldl paint].
  change (400 - 100) with 300. change (300 - 100) with 200.
  rewrite Htext, Hellipse.
  change (on_outline (50, 50, 400 - 50, 300 - 50) 3 50 50) with true.
  by destruct (existsb _ bs).
Qed.

Lemma scenario_boxes_five s bs : bs ∈ scenario_boxes s → length bs = 5%nat.
Proof.
  unfold scenario_boxes. case_decide; intros Hin;
    repeat (apply elem_of_cons in Hin as [->|Hin]; [done|]);
    by apply elem_of_nil in Hin.
Qed.

(** Every run of [main] saves three images; each is 400 by 300, has
    eight drawing calls, five of them filled rectangles, and the name and
    the background colour of one of the test cases rendered. *)
Theorem saved_images_shape (fuel : nat) (environ : gmap string string)
    (g : PyRandom.state) :
  (4 ≤ fuel)%nat →
  ∃ g' evs,
    main fuel environ g = Ok (tt, g', evs) ∧
    length (saved evs) = 3%nat ∧
    ∀ p im, (p, im) ∈ saved evs →
      size im = (400, 300) ∧
      length (calls im) = 8%nat ∧
      length (filled_boxes im) = 5%nat ∧
      ∃ tc, tc ∈ modified_test_cases (scenario_of environ) ∧
            p = path_join "outputs" (filename tc) ∧
            background im = (color_scheme tc).1.1.
Proof.
  intros Hfuel.
  destruct (main_run fuel environ g Hfuel) as (msgs & g' & Hmsgs & Hmain).
  eexists g', _. split; [exact Hmain|].
  rewrite saved_main_events
    by (done || by rewrite modified_test_cases_length, scenario_boxes_length).
  split.
  { by rewrite length_zip_with, modified_test_cases_length,
      scenario_boxes_length. }
  intros p im Hin.
  apply elem_of_lookup_zip_with in Hin as (i & tc & bs & [= -> ->] & Htc & Hbs).
  apply list_elem_of_lookup_2 in Htc, Hbs.
  apply scenario_boxes_five in Hbs.
  rewrite filled_boxes_image_of.
  destruct (color_scheme tc) as [[bg tcol] sc] eqn:Hcs. unfold image_of.
  destruct (textbbox (0, 0) (text tc)) as [[[b0 b1] b2] b3].
  cbn [size calls background]. rewrite length_app, length_fmap, Hbs.
  repeat split; try done. exists tc. by rewrite Hcs.
Qed.

(** The [changed] scenario seeds the generator with 123 and overrides
    every descriptor: text and colours of the first and the third, the
    colours of the second, whose caption stays. *)
Theorem changed_overrides_every_descriptor (fuel : nat)
    (environ : gmap string string) (g : PyRandom.state) :
  (4 ≤ fuel)%nat →
  environ !! "TEST_SCENARIO" = Some "changed" →
  ∃ g' evs,
    main fuel environ g = Ok (tt, g', evs) ∧
    seeds evs = [123] ∧
    overridden test_cases (modified_test_cases (scenario_of environ))
      = [0; 1; 2]%nat ∧
    text <$> modified_test_cases (scenario_of environ) =
      ["Main Screen UI - UPDATED"; "Settings Dialog";
       "Dashboard View - MODIFIED"] ∧
    Forall2 (λ before after, color_scheme before ≠ color_scheme after)
      test_cases (modified_test_cases (scenario_of environ)).
Proof.
  intros Hfuel Henv.
  assert (scenario_of environ = "changed") as Hs.
  { unfold scenario_of. by rewrite Henv. }
  destruct (main_run fuel environ g Hfuel) as (msgs & g' & Hmsgs & Hmain).
  cbn zeta in Hmain. rewrite Hs in *.
  eexists g', _. split; [exact Hmain|]. split.
  { rewrite !seeds_app, (seeds_prints msgs Hmsgs), seeds_render_events.
    reflexivity. }
  split; [vm_compute; reflexivity|]. split; [vm_compute; reflexivity|].
  repeat constructor; discriminate.
Qed.

(** With a rendering of ellipse and captions that leaves the first
    corner of the border alone, each of the three images of the [changed]
    scenario differs from the image of the same name of the [baseline]
    scenario: at pixel [(50, 50)] each shows its own shape colour. *)
Theorem changed_every_image_differs (fuel : nat)
    (env_changed env_baseline : gmap string string)
    (g_changed g_baseline : PyRandom.state) :
  (4 ≤ fuel)%nat →
  env_changed !! "TEST_SCENARIO" = Some "changed" →
  scenario_of env_baseline = "baseline" →
  (∀ tc, tc ∈ test_cases ++ modified_test_cases "changed" →
         corner_untouched (text tc)) →
  ∃ g1 evs_changed g2 evs_baseline,
    main fuel env_changed g_changed = Ok (tt, g1, evs_changed) ∧
    main fuel env_baseline g_baseline = Ok (tt, g2, evs_baseline) ∧
    length (saved evs_changed) = 3%nat ∧
    length (saved evs_baseline) = 3%nat ∧
    ∀ i p_c im_c p_b im_b,
      saved evs_changed !! i = Some (p_c, im_c) →
      saved evs_baseline !! i = Some (p_b, im_b) →
      p_c = p_b ∧ ¬ pixel_identical im_c im_b.
Proof.
  intros Hfuel Hc Hb Hcorner.
  assert (scenario_of env_changed = "changed") as Hc'.
  { unfold scenario_of. by rewrite Hc. }
  destruct (main_run fuel env_changed g_changed Hfuel)
    as (msgs1 & g1 & Hmsgs1 & Hmain1).
  destruct (main_run fuel env_baseline g_baseline Hfuel)
    as (msgs2 & g2 & Hmsgs2 & Hmain2).
  cbn zeta in Hmain1, Hmain2. rewrite Hc' in Hmain1. rewrite Hb in Hmain2.
  eexists g1, _, g2, _.
  split; [exact Hmain1|]. split; [exact Hmain2|].
  rewrite !saved_main_events by done.
  split; [reflexivity|]. split; [reflexivity|].
  intros i p_c im_c p_b im_b Hic Hib.
  apply lookup_zip_with_Some in Hic as (tc_c & bs_c & [= -> ->] & Htc_c & _).
  apply lookup_zip_with_Some in Hib as (tc_b & bs_b & [= -> ->] & Htc_b & _).
  change (modified_test_cases "baseline") with test_cases in Htc_b.
  assert (corner_untouched (text tc_c)) as Hcorner_c.
  { apply Hcorner, elem_of_app. right. by eapply list_elem_of_lookup_2. }
  assert (corner_untouched (text tc_b)) as Hcorner_b.
  { apply Hcorner, elem_of_app. left. by eapply list_elem_of_lookup_2. }
  assert (filename tc_c = filename tc_b ∧
          (color_scheme tc_c).2 ≠ (color_scheme tc_b).2) as [Hname Hshape].
  { destruct i as [|[|[|i]]]; vm_compute in Htc_c, Htc_b;
      try discriminate Htc_c;
      injection Htc_c as <-; injection Htc_b as <-; by split. }
  split; [by rewrite Hname|].
  intros [_ Hpx]. specialize (Hpx 50 50).
  destruct (color_scheme tc_c) as [[bg_c t_c] sc_c].
  destruct (color_scheme tc_b) as [[bg_b t_b] sc_b].
  rewrite !getpixel_border_corner in Hpx by done.
  cbn [snd] in Hshape. congruence.
Qed.
End generator_extras.

(** ** Further properties of the runner *)

Section runner_extras.
Import test_scenarios test_scenarios_runs test_scenarios_views.
Context {World : Type}.
Context (path_exists : string → World → bool).
Context (rmtree : string → World → World).
Context (listdir : string → World → list string).
Context (subprocess_run :
           list string → gmap string string → World
           → CompletedProcess * World).

Abbreviation run_scenario' :=
  (run_scenario path_exists rmtree listdir subprocess_run).
Abbreviation run_all' := (run_all path_exists rmtree listdir subprocess_run).
Abbreviation run_main' := (run_main path_exists rmtree listdir subprocess_run).

(** All that one scenario does, in order. *)
Lemma run_scenario_trace environ scenario_name w :
  let w1 := if path_exists "outputs" w then rmtree "outputs" w else w in
  let w2 := if path_exists "diffs" w1 then rmtree "diffs" w1 else w1 in
  let env := <["TEST_SCENARIO" := scenario_name]> environ in
  let r := subprocess_run ["python"; "generate_test_images.py"] env w2 in
  run_scenario' environ scenario_name w =
    (inl (bool_decide (returncode r.1 = 0)), r.2,
     [Print (PyStr.newline +:+ rule);
      Print ("Running scenario: " +:+ scenario_name); Print rule] ++
     (if path_exists "outputs" w then [Rmtree "outputs"] else []) ++
     (if path_exists "diffs" w1 then [Rmtree "diffs"] else []) ++
     [Print "Generating test images...";
      Run ["python"; "generate_test_images.py"] env r.1] ++
     (if decide (returncode r.1 ≠ 0)
      then [Print ("Error generating images: " +:+ stderr r.1)]
      else Print (stdout r.1) ::
           (if path_exists "outputs" r.2
            then [Print ("Generated " +:+ pretty (length (listdir "outputs" r.2))
                         +:+ " output files: "
                         +:+ PyStr.str_list (listdir "outputs" r.2))]
            else []))).
Proof.
  intros w1 w2 env r. subst w1 w2 env r.
  unfold test_scenarios.run_scenario, mbind, IO_bind, bind, mret, IO_ret,
    ret, print, os_path_exists, os_listdir, when, shutil_rmtree,
    subprocess_run_capture.
  cbn -[rule append pretty].
  destruct (path_exists "outputs" w); cbn -[rule append pretty];
    (destruct (path_exists "diffs" _); cbn -[rule append pretty];
     (destruct (subprocess_run _ _ _) as [[rc out err] w3];
      cbn -[rule append pretty];
      (case_decide as Hrc; cbn -[rule append pretty];
       [|destruct (path_exists "outputs" w3); cbn -[rule append pretty]];
       rewrite ?bool_decide_eq_false_2, ?bool_decide_eq_true_2 by lia;
       reflexivity))).
Qed.
(** One scenario, the cleanup: [outputs] and then [diffs] are removed
    when they exist, before the child is started; the child runs in the
    world so cleaned, and the world it leaves is the one [run_scenario]
    leaves: nothing is removed or changed afterwards. *)
Theorem run_scenario_cleans_then_spawns (environ : gmap string string)
    (scenario_name : string) (w : World) :
  let w1 := if path_exists "outputs" w then rmtree "outputs" w else w in
  let w2 := if path_exists "diffs" w1 then rmtree "diffs" w1 else w1 in
  let env := <["TEST_SCENARIO" := scenario_name]> environ in
  let args := ["python"; "generate_test_images.py"] in
  let r := subprocess_run args env w2 in
  ∃ ok evs pre post,
    run_scenario' environ scenario_name w = (inl ok, r.2, evs) ∧
    evs = pre ++ Run args env r.1 :: post ∧
    deletions pre =
      (if path_exists "outputs" w then ["outputs"] else []) ++
      (if path_exists "diffs" w1 then ["diffs"] else []) ∧
    runs pre = [] ∧
    only_prints post.
Proof.
  intros w1 w2 env args r.
  pose proof (run_scenario_trace environ scenario_name w) as Htrace.
  cbn zeta in Htrace. fold w1 w2 env args r in Htrace. fold w1 in Htrace.
  eexists _, _,
    ([Print (PyStr.newline +:+ rule);
      Print ("Running scenario: " +:+ scenario_name); Print rule] ++
     (if path_exists "outputs" w then [Rmtree "outputs"] else []) ++
     (if path_exists "diffs" w1 then [Rmtree "diffs"] else []) ++
     [Print "Generating test images..."]), _.
  split; [exact Htrace|]. split.
  { rewrite <- !app_assoc. reflexivity. }
  split; [|split].
  - by destruct (path_exists "outputs" w), (path_exists "diffs" w1).
  - by destruct (path_exists "outputs" w), (path_exists "diffs" w1).
  - unfold only_prints. case_decide; [done|].
    by destruct (path_exists "outputs" r.2).
Qed.

(** One scenario, the report: the result is [True] exactly when the
    child returned status 0.  After a failure the last line printed is
    the error message with the child's standard error, and its standard
    output and the listing of [outputs] are not printed; after a success
    the child's standard output is printed, and then the listing when
    [outputs] exists. *)
Theorem run_scenario_reports (environ : gmap string string)
    (scenario_name : string) (w : World) :
  ∃ ok w' evs result,
    run_scenario' environ scenario_name w = (inl ok, w', evs) ∧
    runs evs = [(["python"; "generate_test_images.py"],
                 <["TEST_SCENARIO" := scenario_name]> environ, result)] ∧
    (ok = true ↔ returncode result = 0) ∧
    prints evs =
      [PyStr.newline +:+ rule; "Running scenario: " +:+ scenario_name; rule;
       "Generating test images..."] ++
      (if ok then
         stdout result ::
         (if path_exists "outputs" w'
          then ["Generated " +:+ pretty (length (listdir "outputs" w'))
                +:+ " output files: "
                +:+ PyStr.str_list (listdir "outputs" w')]
          else [])
       else ["Error generating images: " +:+ stderr result]).
Proof.
  pose proof (run_scenario_trace environ scenario_name w) as Htrace.
  cbn zeta in Htrace.
  destruct (subprocess_run _ _ _) as [result w'] eqn:Hrun.
  cbn [fst snd] in Htrace.
  eexists _, w', _, result. split; [exact Htrace|].
  destruct (path_exists "outputs" w), (path_exists "diffs" _);
    (case_decide as Hrc;
     [rewrite bool_decide_eq_false_2 by done
     |rewrite bool_decide_eq_true_2 by lia;
      destruct (path_exists "outputs" w')];
     (split; [reflexivity|]); (split; [|reflexivity]);
     split; (done || lia)).
Qed.

Lemma Forall_allowed_prints environ scenarios evs :
  only_prints evs → Forall (event_allowed environ scenarios) evs.
Proof.
  unfold only_prints. induction evs as [|e evs IH]; [constructor|].
  destruct e; [|done..]. cbn [forallb andb]. intros Hall.
  constructor; [done|]. by apply IH.
Qed.

Lemma event_allowed_weaken environ scenarios scenarios' e :
  scenarios ⊆ scenarios' →
  event_allowed environ scenarios e → event_allowed environ scenarios' e.
Proof.
  intros Hsub. destruct e; try done.
  intros [Hargs (s & Hs & Henv)]. split; [done|]. exists s. split; [|done].
  by apply Hsub.
Qed.

Lemma run_scenario_allowed environ scenario_name w :
  Forall (event_allowed environ [scenario_name])
    (run_scenario' environ scenario_name w).2.
Proof.
  rewrite run_scenario_trace. cbn [snd].
  repeat apply Forall_app_2.
  - by repeat constructor.
  - destruct (path_exists "outputs" w); [|constructor].
    constructor; [by left|constructor].
  - destruct (path_exists "diffs" _); [|constructor].
    constructor; [by right|constructor].
  - constructor; [done|]. constructor; [|constructor].
    split; [done|]. exists scenario_name. split; [|done].
    by apply list_elem_of_singleton.
  - case_decide; [by repeat constructor|].
    constructor; [done|].
    destruct (path_exists "outputs" (subprocess_run _ _ _).2);
      by repeat constructor.
Qed.

Lemma run_all_allowed environ scenarios success w :
  Forall (event_allowed environ scenarios)
    (run_all' environ scenarios success w).2.
Proof.
  revert success w. induction scenarios as [|s rest IH]; intros success w.
  - constructor.
  - cbn [test_scenarios.run_all]. unfold mbind, IO_bind, bind.
    pose proof (run_scenario_allowed environ s w) as Hs.
    destruct (run_scenario_spec path_exists rmtree listdir subprocess_run
                environ s w) as (w1 & evs1 & rc & Hrun & _).
    rewrite Hrun in Hs |- *. cbn [snd] in Hs.
    specialize (IH (if negb (bool_decide (rc = 0)) then false else success) w1).
    destruct (run_all' environ rest _ w1) as [[r w2] evs2]. cbn [snd] in *.
    apply Forall_app_2.
    + eapply Forall_impl; [exact Hs|]. intros e.
      apply event_allowed_weaken.
      intros x Hx. apply list_elem_of_singleton in Hx as ->. by left.
    + eapply Forall_impl; [exact IH|]. intros e.
      apply event_allowed_weaken. intros x Hx. by right.
Qed.

(** [main] with the scenarios it selects: the banner, the loop over
    them, the closing lines; the status is 0 when the loop found every
    child returning 0 and 1 otherwise. *)
Lemma main_selected argv environ w scenarios :
  selects argv scenarios →
  ∃ w' evs pre post,
    run_all' environ scenarios true w
      = (inl (forallb (λ i, bool_decide (i.2 = 0)) (invocations evs)), w', evs) ∧
    (invocations evs).*1 = Some <$> scenarios ∧
    run_main' argv environ w
      = ((if forallb (λ i, bool_decide (i.2 = 0)) (invocations evs)
          then 0 else 1), w', pre ++ evs ++ post) ∧
    only_prints pre ∧ only_prints post.
Proof.
  intros Hsel.
  destruct (run_all_spec path_exists rmtree listdir subprocess_run
              environ scenarios true w) as (w' & evs & Hrun & Hinv).
  cbn [andb] in Hrun.
  exists w', evs. unfold test_scenarios.run_main, test_scenarios.main.
  destruct Hsel as [[Hlen ->]|(s & Hs & Hin & ->)].
  - destruct (decide (1 < length argv)%nat) as [|_]; [lia|].
    unfold mbind, IO_bind, bind, mret, IO_ret, ret, print.
    cbn -[invocations rule append] in Hrun |- *. rewrite Hrun.
    destruct (forallb _ (invocations evs));
      cbn -[invocations rule append];
      eexists [_; _; _; _; _; _; _], _; by repeat split.
  - destruct (decide (1 < length argv)%nat) as [_|Hlen].
    2:{ apply lookup_lt_Some in Hs. lia. }
    rewrite Hs. change (default "" (Some s)) with s.
    destruct (decide (s ∉ ["baseline"; "changed"; "mixed"])); [done|].
    unfold mbind, IO_bind, bind, mret, IO_ret, ret, print.
    cbn -[invocations rule append] in Hrun |- *. rewrite Hrun.
    destruct (forallb _ (invocations evs));
      cbn -[invocations rule append];
      eexists [_; _; _; _; _; _; _], _; by repeat split.
Qed.

Lemma main_rejected argv environ w s :
  argv !! 1%nat = Some s →
  s ∉ ["baseline"; "changed"; "mixed"] →
  ∃ line, run_main' argv environ w = (1, w, [Print line]).
Proof.
  intros Hs Hbad. unfold test_scenarios.run_main, test_scenarios.main.
  destruct (decide (1 < length argv)%nat) as [_|Hlen].
  2:{ apply lookup_lt_Some in Hs. lia. }
  rewrite Hs. change (default "" (Some s)) with s.
  destruct (decide (s ∉ ["baseline"; "changed"; "mixed"])); [|done].
  eexists. reflexivity.
Qed.

(** What the arguments amount to: they select the three scenarios or
    one valid scenario, or the second of them is rejected. *)
Lemma argv_cases (argv : list string) :
  (∃ scenarios, selects argv scenarios ∧
                scenarios ⊆ ["baseline"; "changed"; "mixed"] ∧
                (length scenarios = 1 ∨ length scenarios = 3)%nat) ∨
  (∃ s, argv !! 1%nat = Some s ∧ s ∉ ["baseline"; "changed"; "mixed"]).
Proof.
  destruct (decide (1 < length argv)%nat) as [Hlen|Hlen].
  - destruct (lookup_lt_is_Some_2 argv 1%nat Hlen) as [s Hs].
    destruct (decide (s ∈ ["baseline"; "changed"; "mixed"])) as [Hin|Hout].
    + left. exists [s]. split; [right; by exists s|].
      split; [|by left].
      intros x Hx. by apply list_elem_of_singleton in Hx as ->.
    + right. by exists s.
  - left. eexists. split; [left; split; [lia|reflexivity]|].
    split; [done|by right].
Qed.
Lemma invocations_framed pre evs post :
  only_prints pre → only_prints post →
  invocations (pre ++ evs ++ post) = invocations evs.
Proof.
  intros Hpre Hpost.
  by rewrite !invocations_app, (invocations_prints pre),
    (invocations_prints post), app_nil_r.
Qed.

(** Called with a valid scenario as first argument, the runner starts one
    child, for that scenario, and exits with status 0 if the child
    returned status 0 and with status 1 otherwise. *)
Theorem single_scenario_argument (argv : list string)
    (environ : gmap string string) (w : World) (scenario : string) :
  argv !! 1%nat = Some scenario →
  scenario ∈ ["baseline"; "changed"; "mixed"] →
  ∃ status w' evs rc,
    run_main' argv environ w = (status, w', evs) ∧
    invocations evs = [(Some scenario, rc)] ∧
    (status = 0 ↔ rc = 0) ∧
    (status ≠ 0 → status = 1).
Proof.
  intros Hs Hin.
  destruct (main_selected argv environ w [scenario])
    as (w' & evs & pre & post & _ & Hinv & Hmain & Hpre & Hpost).
  { right. by exists scenario. }
  destruct (invocations evs) as [|[s rc] [|]] eqn:Hi; try discriminate Hinv.
  injection Hinv as ->.
  eexists _, w', _, rc. split; [exact Hmain|].
  rewrite invocations_framed, Hi by done. split; [done|].
  cbn [forallb snd andb]. case_bool_decide; (split; [|done]); split; done.
Qed.

(** Whatever the arguments, the runner exits with status 0 or 1 and
    starts no child, one child or three; the status is 0 exactly when it
    started at least one child and every child returned status 0. *)
Theorem runner_exit_status (argv : list string)
    (environ : gmap string string) (w : World) :
  ∃ status w' evs,
    run_main' argv environ w = (status, w', evs) ∧
    (status = 0 ∨ status = 1) ∧
    (length (invocations evs) = 0 ∨ length (invocations evs) = 1 ∨
     length (invocations evs) = 3)%nat ∧
    (status = 0 ↔
       invocations evs ≠ [] ∧ Forall (λ i, i.2 = 0) (invocations evs)).
Proof.
  destruct (argv_cases argv) as [(l & Hsel & _ & Hlen)|(s & Hs & Hbad)].
  - destruct (main_selected argv environ w l Hsel)
      as (w' & evs & pre & post & _ & Hinv & Hmain & Hpre & Hpost).
    eexists _, w', _. split; [exact Hmain|].
    rewrite invocations_framed by done.
    assert (length (invocations evs) = length l) as Hleq.
    { by rewrite <- (length_fmap fst), Hinv, length_fmap. }
    split; [by destruct (forallb _ _); [left|right]|].
    split; [lia|].
    destruct (forallb _ (invocations evs)) eqn:Hall.
    + split; [|done]. intros _. split.
      * intros Hnil. rewrite Hnil in Hleq. simpl in Hleq. lia.
      * apply Is_true_true, forallb_True in Hall.
        eapply Forall_impl; [exact Hall|].
        intros i Hi. by apply bool_decide_unpack in Hi.
    + split; [done|]. intros [_ HF].
      assert (forallb (λ i, bool_decide (i.2 = 0)) (invocations evs) = true)
        as Habs; [|congruence].
      apply Is_true_true, forallb_True. eapply Forall_impl; [exact HF|].
      intros i Hi. by apply bool_decide_pack.
  - destruct (main_rejected argv environ w s Hs Hbad) as [line Hmain].
    eexists _, w, _. split; [exact Hmain|].
    split; [by right|]. split; [by left|].
    split; [done|]. by intros [Hne _].
Qed.

(** Whatever the arguments, the only directories the runner removes are
    [outputs] and [diffs], and every child it starts is the generator,
    run with [TEST_SCENARIO] set to one of the three scenarios and every
    other variable of the environment as the runner has it. *)
Theorem runner_touches_only_its_own (argv : list string)
    (environ : gmap string string) (w : World) :
  let evs := (run_main' argv environ w).2 in
  (∀ path, path ∈ deletions evs → path = "outputs" ∨ path = "diffs") ∧
  (∀ args env result, (args, env, result) ∈ runs evs →
     args = ["python"; "generate_test_images.py"] ∧
     (∃ s, s ∈ ["baseline"; "changed"; "mixed"] ∧
           env !! "TEST_SCENARIO" = Some s) ∧
     ∀ k, k ≠ "TEST_SCENARIO" → env !! k = environ !! k).
Proof.
  intros evs.
  assert (Forall (event_allowed environ ["baseline"; "changed"; "mixed"]) evs)
    as Hall.
  { subst evs.
    destruct (argv_cases argv) as [(l & Hsel & Hsub & _)|(s & Hs & Hbad)].
    - destruct (main_selected argv environ w l Hsel)
        as (w' & evs & pre & post & Hrun & _ & Hmain & Hpre & Hpost).
      rewrite Hmain. cbn [snd].
      pose proof (run_all_allowed environ l true w) as Hl.
      rewrite Hrun in Hl. cbn [snd] in Hl.
      repeat apply Forall_app_2; try by apply Forall_allowed_prints.
      eapply Forall_impl; [exact Hl|]. intros e.
      by apply event_allowed_weaken.
    - destruct (main_rejected argv environ w s Hs Hbad) as [line Hmain].
      rewrite Hmain. by repeat constructor. }
  rewrite Forall_forall in Hall. split.
  - intros path Hin. apply list_elem_of_omap in Hin as (e & He & Heq).
    specialize (Hall e He). destruct e; try discriminate Heq.
    by injection Heq as <-.
  - intros args env result Hin.
    apply list_elem_of_omap in Hin as (e & He & Heq).
    specialize (Hall e He). destruct e; try discriminate Heq.
    injection Heq as <- <- <-.
    destruct Hall as [Hargs (s & Hs & ->)]. split; [done|]. split.
    + exists s. split; [done|]. apply lookup_insert_eq.
    + intros k Hk. by apply lookup_insert_ne.
Qed.

Lemma run_all_world environ scenarios success w :
  (run_all' environ scenarios success w).1.2
  = foldl (after_scenario path_exists rmtree subprocess_run environ) w scenarios.
Proof.
  revert success w. induction scenarios as [|s rest IH]; intros success w;
    [done|].
  cbn [test_scenarios.run_all foldl]. unfold mbind, IO_bind, bind.
  rewrite run_scenario_trace.
  specialize (IH (if negb (bool_decide
                    (returncode
                       (subprocess_run ["python"; "generate_test_images.py"]
                          (<["TEST_SCENARIO" := s]> environ)
                          (cleaned path_exists rmtree w)).1 = 0))
                  then false else success)
                (after_scenario path_exists rmtree subprocess_run environ w s)).
  unfold after_scenario, cleaned in *.
  destruct (run_all' environ rest _ _) as [[r w2] evs2]. exact IH.
Qed.

(** The scenarios of a run compose: the world the runner leaves is the
    world left by the generator for the last scenario, started in the
    cleaned world left by the generator for the scenario before, and so
    on from the initial world; the runner changes nothing in between
    besides the cleanup. *)
Theorem runner_world_is_composition (argv : list string)
    (environ : gmap string string) (w : World) (scenarios : list string) :
  selects argv scenarios →
  (run_main' argv environ w).1.2
  = foldl (after_scenario path_exists rmtree subprocess_run environ) w scenarios.
Proof.
  intros Hsel.
  destruct (main_selected argv environ w scenarios Hsel)
    as (w' & evs & pre & post & Hrun & _ & Hmain & _ & _).
  rewrite Hmain. cbn [fst snd].
  by rewrite <- (run_all_world environ scenarios true w), Hrun.
Qed.
End runner_extras.

(** ** The further properties at concrete inputs *)

Section concrete_extras.
Import PIL PILSpec generate_test_images generate_test_images_runs.
Import generate_test_images_views.

(** The pixel (130, 120) of the first baseline image lies under the
    second and under the fifth random rectangle. *)
Lemma random_rectangle_paints_over_witness :
  value (create_test_image (H := block_raster) 4 "ui-main-screen.png"
           "Main Screen UI" 400 300
           (Some ((255, 255, 255), (0, 0, 0), (100, 150, 200)))
           (PyRandom.seed 42))
    = Ok (image_of (H := block_raster) "Main Screen UI" 400 300
            ((255, 255, 255), (0, 0, 0), (100, 150, 200))
            [(327, 57, 338, 84); (125, 114, 143, 130); (346, 279, 361, 326);
             (216, 16, 227, 31); (111, 119, 153, 167)]) ∧
  getpixel (H := block_raster)
    (image_of (H := block_raster) "Main Screen UI" 400 300
       ((255, 255, 255), (0, 0, 0), (100, 150, 200))
       [(327, 57, 338, 84); (125, 114, 143, 130); (346, 279, 361, 326);
        (216, 16, 227, 31); (111, 119, 153, 167)]) 130 120
    = Some (100, 150, 200).
Proof.
  split; [vm_compute; reflexivity|].
  apply (random_rectangle_paints_over (H := block_raster) 4
           "ui-main-screen.png" "Main Screen UI" 400 300
           (Some ((255, 255, 255), (0, 0, 0), (100, 150, 200)))
           (PyRandom.seed 42) _ 4%nat (125, 114, 143, 130) 130 120);
    [vm_compute; reflexivity | reflexivity | lia | lia | reflexivity].
Defined.

Lemma saved_images_shape_witness :
  (4 ≤ 4)%nat ∧
  ∃ g' evs,
    main (H := block_raster) 4 {["TEST_SCENARIO" := "mixed"]} (PyRandom.seed 0)
      = Ok (tt, g', evs) ∧
    length (saved evs) = 3%nat ∧
    ∀ p im, (p, im) ∈ saved evs →
      size im = (400, 300) ∧
      length (calls im) = 8%nat ∧
      length (filled_boxes im) = 5%nat ∧
      ∃ tc, tc ∈ modified_test_cases
                   (scenario_of {["TEST_SCENARIO" := "mixed"]}) ∧
            p = path_join "outputs" (filename tc) ∧
            background im = (color_scheme tc).1.1.
Proof.
  split; [lia|].
  apply (saved_images_shape (H := block_raster) 4
           {["TEST_SCENARIO" := "mixed"]} (PyRandom.seed 0)).
  lia.
Defined.

Lemma changed_overrides_every_descriptor_witness :
  (4 ≤ 4)%nat ∧
  ({["TEST_SCENARIO" := "changed"]} : gmap string string) !! "TEST_SCENARIO"
    = Some "changed" ∧
  ∃ g' evs,
    main (H := block_raster) 4 {["TEST_SCENARIO" := "changed"]} (PyRandom.seed 0)
      = Ok (tt, g', evs) ∧
    seeds evs = [123] ∧
    overridden test_cases
      (modified_test_cases (scenario_of {["TEST_SCENARIO" := "changed"]}))
      = [0; 1; 2]%nat ∧
    text <$> modified_test_cases (scenario_of {["TEST_SCENARIO" := "changed"]}) =
      ["Main Screen UI - UPDATED"; "Settings Dialog";
       "Dashboard View - MODIFIED"] ∧
    Forall2 (λ before after, color_scheme before ≠ color_scheme after)
      test_cases
      (modified_test_cases (scenario_of {["TEST_SCENARIO" := "changed"]})).
Proof.
  split; [lia|]. split; [reflexivity|].
  apply (changed_overrides_every_descriptor (H := block_raster) 4
           {["TEST_SCENARIO" := "changed"]} (PyRandom.seed 0));
    [lia | reflexivity].
Defined.

(** The block rasteriser leaves the corner of the border alone for the
    captions of the baseline and of the changed scenario. *)
Lemma changed_every_image_differs_witness :
  (4 ≤ 4)%nat ∧
  ({["TEST_SCENARIO" := "changed"]} : gmap string string) !! "TEST_SCENARIO"
    = Some "changed" ∧
  scenario_of ∅ = "baseline" ∧
  (∀ tc, tc ∈ test_cases ++ modified_test_cases "changed" →
         corner_untouched (H := block_raster) (text tc)) ∧
  ∃ g1 evs_changed g2 evs_baseline,
    main (H := block_raster) 4 {["TEST_SCENARIO" := "changed"]} (PyRandom.seed 0)
      = Ok (tt, g1, evs_changed) ∧
    main (H := block_raster) 4 ∅ (PyRandom.seed 0) = Ok (tt, g2, evs_baseline) ∧
    length (saved evs_changed) = 3%nat ∧
    length (saved evs_baseline) = 3%nat ∧
    ∀ i p_c im_c p_b im_b,
      saved evs_changed !! i = Some (p_c, im_c) →
      saved evs_baseline !! i = Some (p_b, im_b) →
      p_c = p_b ∧ ¬ pixel_identical (H := block_raster) im_c im_b.
Proof.
  assert (∀ tc, tc ∈ test_cases ++ modified_test_cases "changed" →
                corner_untouched (H := block_raster) (text tc)) as Hcorner.
  { intros tc Hin.
    let l := eval vm_compute in (test_cases ++ modified_test_cases "changed") in
    change (tc ∈ l) in Hin.
    repeat (apply elem_of_cons in Hin as [->|Hin];
            [split; [intros [f|] [o|] width old|intros fill old];
             reflexivity|]).
    by apply elem_of_nil in Hin. }
  split; [lia|]. split; [reflexivity|]. split; [reflexivity|].
  split; [exact Hcorner|].
  apply (changed_every_image_differs (H := block_raster) 4
           {["TEST_SCENARIO" := "changed"]} ∅ (PyRandom.seed 0) (PyRandom.seed 0));
    [lia | reflexivity | reflexivity | exact Hcorner].
Defined.
End concrete_extras.

Section concrete_runner_extras.
Import test_scenarios test_scenarios_runs test_scenarios_views.

Lemma single_scenario_argument_witness :
  ["test_scenarios.py"; "mixed"] !! 1%nat = Some "mixed" ∧
  ("mixed" ∈ ["baseline"; "changed"; "mixed"]) ∧
  ∃ status w' evs rc,
    sim_main ["mixed"] ["test_scenarios.py"; "mixed"] ∅ ∅ = (status, w', evs) ∧
    invocations evs = [(Some "mixed", rc)] ∧
    (status = 0 ↔ rc = 0) ∧
    (status ≠ 0 → status = 1).
Proof.
  split; [reflexivity|].
  split; [apply (bool_decide_unpack _); vm_compute; exact I|].
  apply (single_scenario_argument sim_path_exists sim_rmtree sim_listdir
           (sim_subprocess_run ["mixed"])
           ["test_scenarios.py"; "mixed"] ∅ ∅ "mixed");
    [reflexivity | apply (bool_decide_unpack _); vm_compute; exact I].
Defined.

Lemma runner_world_is_composition_witness :
  selects ["test_scenarios.py"] ["baseline"; "changed"; "mixed"] ∧
  (sim_main ["changed"] ["test_scenarios.py"] ∅
     ({["diffs" := ["old.png"]]} : dirs)).1.2
  = foldl (after_scenario sim_path_exists sim_rmtree
             (sim_subprocess_run ["changed"]) ∅)
      ({["diffs" := ["old.png"]]} : dirs) ["baseline"; "changed"; "mixed"].
Proof.
  assert (selects ["test_scenarios.py"] ["baseline"; "changed"; "mixed"])
    as Hsel.
  { left. split; [simpl; lia | reflexivity]. }
  split; [exact Hsel|].
  apply (runner_world_is_composition sim_path_exists sim_rmtree sim_listdir
           (sim_subprocess_run ["changed"]) ["test_scenarios.py"] ∅
           ({["diffs" := ["old.png"]]} : dirs)
           ["baseline"; "changed"; "mixed"] Hsel).
Defined.
End concrete_runner_extras.
